(** * load-test-data.py: the PowerDNS test-data provisioner

    A shallow embedding of [docker/pdns/load-test-data.py].  The script is
    a sequence of blocking calls (file system, HTTP, sleep, console), so it
    is modelled in a small monad that threads the state of the outside
    world, logs every interaction, and carries Python's exceptions. *)

From Stdlib Require Import List ZArith NArith Bool String Ascii Lia.
From Stdlib.Strings Require Import Byte.
From Corelib Require Import PrimFloat.
Import ListNotations.

Local Open Scope Z_scope.
Set Warnings "-register-all".

(* ================================================================== *)
(** ** Python values *)
(* ================================================================== *)

(** A Python [str] is a sequence of code points. *)
Definition pystr := list N.

(** Source literals are ASCII. *)
Definition lit (s : string) : pystr :=
  map N_of_ascii (list_ascii_of_string s).

Fixpoint str_eqb (a b : pystr) : bool :=
  match a, b with
  | [], [] => true
  | x :: a', y :: b' => N.eqb x y && str_eqb a' b'
  | _, _ => false
  end.

Fixpoint str_prefix (p s : pystr) : bool :=
  match p, s with
  | [], _ => true
  | x :: p', y :: s' => N.eqb x y && str_prefix p' s'
  | _ :: _, [] => false
  end.

(** [p in s] for two strings. *)
Fixpoint str_infix (p s : pystr) : bool :=
  str_prefix p s || match s with [] => false | _ :: s' => str_infix p s' end.

(** What [json.load] / [json.loads] produce, and what the script passes
    around: [None], [bool], [int], [float], [str], [list], and [dict] with
    string keys.  A [dict] keeps its items in insertion order. *)
Inductive json : Type :=
| JNull
| JBool (b : bool)
| JInt (z : Z)
| JFloat (f : float)
| JStr (s : pystr)
| JArr (xs : list json)
| JObj (items : list (pystr * json)).

(** Truth value testing, as in [x if data else None] and
    [... and zone_data["rrsets"]]. *)
Definition truthy (v : json) : bool :=
  match v with
  | JNull => false
  | JBool b => b
  | JInt z => negb (z =? 0)
  | JFloat f => negb (PrimFloat.eqb f 0%float)
  | JStr s => match s with [] => false | _ => true end
  | JArr xs => match xs with [] => false | _ => true end
  | JObj items => match items with [] => false | _ => true end
  end.

(** [d.get(k)] on the items of a dict. *)
Fixpoint dict_get (items : list (pystr * json)) (k : pystr) : option json :=
  match items with
  | [] => None
  | (k', v) :: rest => if str_eqb k' k then Some v else dict_get rest k
  end.

(** [d.get(k, default)]. *)
Definition dict_get_default (items : list (pystr * json)) (k : pystr)
    (default : json) : json :=
  match dict_get items k with
  | Some v => v
  | None => default
  end.

(** [k in d]. *)
Definition dict_contains (items : list (pystr * json)) (k : pystr) : bool :=
  match dict_get items k with
  | Some _ => true
  | None => false
  end.

(** [{k: v for k, v in d.items() if k != key}]. *)
Definition dict_without (items : list (pystr * json)) (key : pystr)
    : list (pystr * json) :=
  filter (fun kv => negb (str_eqb (fst kv) key)) items.

Definition dict_keys (items : list (pystr * json)) : list pystr :=
  map fst items.

(* ================================================================== *)
(** ** Exceptions *)
(* ================================================================== *)

(** What a blocking call of the standard library can raise on its own:
    Ctrl-C, or an error of some class under [Exception] ([cls] names it,
    [msg] is its [str(e)]).  [HTTPError] is kept apart, see
    [urlopen_result]. *)
Inductive fault : Type :=
| Interrupt
| Error (cls : string) (msg : pystr).

(** What reading the body of an HTTP response gives: the bytes, or a
    fault raised by [read()]. *)
Inductive read_result : Type :=
| ReadOk (bs : list Byte.byte)
| ReadFailed (f : fault).

(** Python exceptions.  [KeyboardInterrupt] and [SystemExit] derive from
    [BaseException] only; [HTTPError] and everything under [Exception cls
    msg] (any other class, named by [cls], with [str(e) = msg]) derive from
    [Exception]. *)
Inductive exn : Type :=
| KeyboardInterrupt
| SystemExit (code : Z)
| HTTPError (code : Z) (fp : read_result)
| Exception (cls : string) (msg : pystr).

(** [isinstance(e, Exception)]. *)
Definition is_Exception (e : exn) : bool :=
  match e with
  | KeyboardInterrupt | SystemExit _ => false
  | HTTPError _ _ | Exception _ _ => true
  end.

Definition exn_of_fault (f : fault) : exn :=
  match f with
  | Interrupt => KeyboardInterrupt
  | Error cls msg => Exception cls msg
  end.

(** The result of running a piece of the script. *)
Inductive Res (A : Type) : Type :=
| Ok (a : A)
| Raise (e : exn).
Arguments Ok {A} a.
Arguments Raise {A} e.

Definition KeyError (k : string) : exn :=
  Exception "KeyError" (lit "'" ++ lit k ++ lit "'").
Definition TypeError (what : string) : exn :=
  Exception "TypeError" (lit what).
Definition AttributeError (what : string) : exn :=
  Exception "AttributeError" (lit what).

(** [v[k]] for a string literal [k]: a dict is looked up ([KeyError] when
    the key is absent); no other JSON value can be indexed by a string. *)
Definition getitem (v : json) (k : string) : Res json :=
  match v with
  | JObj items =>
      match dict_get items (lit k) with
      | Some x => Ok x
      | None => Raise (KeyError k)
      end
  | _ => Raise (TypeError "indices must be integers or object is not subscriptable")
  end.

(** [len(v)]: lists, strings and dicts have a length. *)
Definition py_len (v : json) : Res nat :=
  match v with
  | JArr xs => Ok (List.length xs)
  | JStr s => Ok (List.length s)
  | JObj items => Ok (List.length items)
  | _ => Raise (TypeError "object has no len()")
  end.

(** The items [for x in v] goes through: the elements of a list, the keys
    of a dict, the characters of a string. *)
Definition py_iter (v : json) : Res (list json) :=
  match v with
  | JArr xs => Ok xs
  | JStr s => Ok (map (fun c => JStr [c]) s)
  | JObj items => Ok (map JStr (dict_keys items))
  | _ => Raise (TypeError "object is not iterable")
  end.

(** [v.get(k, default)]: only a dict has the method. *)
Definition method_get (v : json) (k : string) (default : json) : Res json :=
  match v with
  | JObj items => Ok (dict_get_default items (lit k) default)
  | _ => Raise (AttributeError "object has no attribute 'get'")
  end.

(* ================================================================== *)
(** ** [bytes.decode('utf-8')] *)
(* ================================================================== *)

Module Utf8.

Local Open Scope N_scope.

Definition cont (b : N) : bool := (0x80 <=? b) && (b <=? 0xBF).

Definition in_range (lo hi x : N) : bool := (lo <=? x) && (x <=? hi).

(** Strict decoding: overlong forms, surrogates and code points above
    U+10FFFF are errors, as are truncated sequences. *)
Fixpoint decode_N (bs : list N) : option pystr :=
  match bs with
  | [] => Some []
  | b0 :: r0 =>
      if b0 <? 0x80 then option_map (cons b0) (decode_N r0)
      else if in_range 0xC2 0xDF b0 then
        match r0 with
        | b1 :: r1 =>
            if cont b1
            then option_map (cons ((b0 - 0xC0) * 64 + (b1 - 0x80))) (decode_N r1)
            else None
        | _ => None
        end
      else if in_range 0xE0 0xEF b0 then
        match r0 with
        | b1 :: b2 :: r2 =>
            let cp := (b0 - 0xE0) * 4096 + (b1 - 0x80) * 64 + (b2 - 0x80) in
            if cont b1 && cont b2 && (0x800 <=? cp)
               && negb (in_range 0xD800 0xDFFF cp)
            then option_map (cons cp) (decode_N r2)
            else None
        | _ => None
        end
      else if in_range 0xF0 0xF4 b0 then
        match r0 with
        | b1 :: b2 :: b3 :: r3 =>
            let cp := (b0 - 0xF0) * 262144 + (b1 - 0x80) * 4096
                      + (b2 - 0x80) * 64 + (b3 - 0x80) in
            if cont b1 && cont b2 && cont b3 && in_range 0x10000 0x10FFFF cp
            then option_map (cons cp) (decode_N r3)
            else None
        | _ => None
        end
      else None
  end.

Definition decode (bs : list Byte.byte) : option pystr :=
  decode_N (map Byte.to_N bs).

End Utf8.

(** [bs.decode('utf-8')]. *)
Definition decode_utf8 (bs : list Byte.byte) : Res pystr :=
  match Utf8.decode bs with
  | Some s => Ok s
  | None => Raise (Exception "UnicodeDecodeError"
                     (lit "'utf-8' codec can't decode bytes"))
  end.

(* ================================================================== *)
(** ** The outside world *)
(* ================================================================== *)

Inductive http_method : Type := GET | POST | PATCH.

(** The two URLs the script builds: [f"{API_URL}/zones"] and
    [f"{API_URL}/zones/{zone_name}"]. *)
Inductive endpoint : Type :=
| Zones
| Zone (zone_name : json).

(** [urllib.request.Request(url, data=request_data, headers=headers,
    method=method)]; the headers are constant.  The body is kept as the
    value that [json.dumps] serialises. *)
Record request : Type := Request {
  url : endpoint;
  data : option json;
  method : http_method
}.

(** The response object [urlopen] returns. *)
Record response : Type := Response {
  status : Z;
  body_fp : read_result
}.

(** A call to [urlopen] returns a response, or raises [HTTPError] for an
    error status (the error carries the status code and the body), or
    raises something else (connection refused, ..., or an interrupt). *)
Inductive urlopen_result : Type :=
| Returned (r : response)
| ErrorStatus (code : Z) (fp : read_result)
| Failed (f : fault).

(** [json.load(f)] on the opened fixture: the parsed document, or a fault
    from [open] or from the parser. *)
Inductive load_result : Type :=
| Loaded (doc : json)
| LoadFailed (f : fault).

(** The environment the script runs in: a state [W] and what each blocking
    call answers in it.  [json_loads] is the (pure) parser of
    [json.loads], [None] for a document it rejects. *)
Record Env (W : Type) : Type := {
  path_exists : W -> bool * W;
  open_json_load : W -> load_result * W;
  urlopen : request -> W -> urlopen_result * W;
  time_sleep : Z -> W -> option fault * W;
  json_loads : pystr -> option json
}.
Arguments path_exists {W} _ _.
Arguments open_json_load {W} _ _.
Arguments urlopen {W} _ _ _.
Arguments time_sleep {W} _ _ _.
Arguments json_loads {W} _ _.

(** Console output, one constructor per [print] of the script, with the
    values that are formatted into the line. *)
Inductive message : Type :=
| MsgLoading
| MsgFileNotFound
| MsgWaiting
| MsgReady
| MsgDot
| MsgNotReady
| MsgCreating (zone_name zone_kind : json)
| MsgCreated
| MsgAdding (count : nat)
| MsgRecordsAdded
| MsgRecordsFailed (patch_status : option Z)
| MsgAlreadyExists
| MsgCreateFailed (status : option Z)
| MsgErrorJson (error_data : json)
| MsgErrorBody (body : option pystr)
| MsgFound (count : nat)
| MsgBlank
| MsgComplete
| MsgProcessed (success_count total : nat)
| MsgSummary
| MsgZone (zone_name zone_kind : json)
| MsgQueryHint
| MsgDigApex
| MsgDigWww
| MsgApiHint
| MsgCurl
| MsgDeleteHint
| MsgDeleteNote
| MsgInterrupted
| MsgError (e : exn).

(** Everything observable about a run, in order. *)
Inductive event : Type :=
| EvPrint (m : message)
| EvExists (answer : bool)
| EvLoad (res : load_result)
| EvHTTP (req : request) (res : urlopen_result)
| EvSleep (seconds : Z) (res : option fault).

(* ================================================================== *)
(** ** The monad of the script *)
(* ================================================================== *)

Section Script.

Context {W : Type}.
Variable E : Env W.

(** A computation takes the world, and gives a result or an exception,
    the events it produced, and the world it leaves. *)
Definition M (A : Type) : Type := W -> Res A * list event * W.

Definition ret {A} (a : A) : M A := fun w => (Ok a, [], w).

Definition raise {A} (e : exn) : M A := fun w => (Raise e, [], w).

Definition bind {A B} (m : M A) (f : A -> M B) : M B :=
  fun w =>
    match m w with
    | (Ok a, t1, w1) =>
        match f a w1 with
        | (r, t2, w2) => (r, t1 ++ t2, w2)
        end
    | (Raise e, t1, w1) => (Raise e, t1, w1)
    end.

(** [try: body  except ...: handler].  [handler e] is [None] when no
    [except] clause matches [e].  An exception raised by a handler is not
    caught by the other clauses of the same [try]. *)
Definition try_except {A} (body : M A) (handler : exn -> option (M A)) : M A :=
  fun w =>
    match body w with
    | (Ok a, t1, w1) => (Ok a, t1, w1)
    | (Raise e, t1, w1) =>
        match handler e with
        | Some h =>
            match h w1 with
            | (r, t2, w2) => (r, t1 ++ t2, w2)
            end
        | None => (Raise e, t1, w1)
        end
    end.

Definition lift {A} (r : Res A) : M A := fun w => (r, [], w).

Definition emit (ev : event) : M unit := fun w => (Ok tt, [ev], w).

Definition print (m : message) : M unit := emit (EvPrint m).

End Script.

Arguments M : clear implicits.

Declare Scope script_scope.
Delimit Scope script_scope with script.
Notation "x <- m ;; k" := (bind m (fun x => k))
  (at level 61, m at next level, right associativity) : script_scope.
Notation "' pat <- m ;; k" := (bind m (fun x => match x with pat => k end))
  (at level 61, pat pattern, m at next level, right associativity) : script_scope.
Notation "m ;; k" := (bind m (fun _ => k))
  (at level 61, right associativity) : script_scope.
Local Open Scope script_scope.

(* ================================================================== *)
(** ** The script *)
(* ================================================================== *)

Section Program.

Context {W : Type}.
Variable E : Env W.

Local Abbreviation M := (@M W).

(** [TEST_DATA_FILE.exists()]. *)
Definition exists_ : M bool :=
  fun w => let (b, w') := path_exists E w in (Ok b, [EvExists b], w').

(** [with open(TEST_DATA_FILE, 'r') as f: json.load(f)]. *)
Definition load : M json :=
  fun w =>
    let (res, w') := open_json_load E w in
    (match res with
     | Loaded doc => Ok doc
     | LoadFailed f => Raise (exn_of_fault f)
     end,
     [EvLoad res], w').

(** [urllib.request.urlopen(req)]. *)
Definition urlopen_ (req : request) : M response :=
  fun w =>
    let (res, w') := urlopen E req w in
    (match res with
     | Returned r => Ok r
     | ErrorStatus code fp => Raise (HTTPError code fp)
     | Failed f => Raise (exn_of_fault f)
     end,
     [EvHTTP req res], w').

(** [time.sleep(seconds)]. *)
Definition sleep (seconds : Z) : M unit :=
  fun w =>
    let (res, w') := time_sleep E seconds w in
    (match res with None => Ok tt | Some f => Raise (exn_of_fault f) end,
     [EvSleep seconds res], w').

(** [sys.exit(code)]. *)
Definition sys_exit {A} (code : Z) : M A := raise (SystemExit code).

(** [fp.read()]. *)
Definition read (fp : read_result) : M (list Byte.byte) :=
  match fp with
  | ReadOk bs => ret bs
  | ReadFailed f => raise (exn_of_fault f)
  end.

(** [json.loads(body)]: a [TypeError] on [None], a [JSONDecodeError] on
    text the parser rejects. *)
Definition loads (body : option pystr) : M json :=
  match body with
  | None => raise (TypeError "the JSON object must be str, bytes or bytearray")
  | Some s =>
      match json_loads E s with
      | Some v => ret v
      | None => raise (Exception "JSONDecodeError" (lit "Expecting value"))
      end
  end.

(** [status == n] for a status that is an [int] or [None]. *)
Definition status_is (st : option Z) (n : Z) : bool :=
  match st with
  | Some s => s =? n
  | None => false
  end.

(** [v == "literal"]: only a [str] equals a string. *)
Definition equals_str (v : json) (s : string) : bool :=
  match v with
  | JStr x => str_eqb x (lit s)
  | _ => false
  end.

(** [k in v] for a string literal [k]: a key of a dict, an element of a
    list, a substring of a string. *)
Definition contains (v : json) (k : string) : Res bool :=
  match v with
  | JObj items => Ok (dict_contains items (lit k))
  | JArr xs => Ok (existsb (fun x => equals_str x k) xs)
  | JStr s => Ok (str_infix (lit k) s)
  | _ => Raise (TypeError "argument is not iterable")
  end.

(** [v.items()]. *)
Definition method_items (v : json) : Res (list (pystr * json)) :=
  match v with
  | JObj items => Ok items
  | _ => Raise (AttributeError "object has no attribute 'items'")
  end.

(** *** [make_request] *)
Definition make_request (u : endpoint) (m : http_method) (d : json)
    : M (option Z * option pystr) :=
  let request_data := if truthy d then Some d else None in
  let req := Request u request_data m in
  try_except
    (response <- urlopen_ req ;;
     bytes <- read (body_fp response) ;;
     body <- lift (decode_utf8 bytes) ;;
     ret (Some (status response),
          if truthy (JStr body) then Some body else None))
    (fun e =>
       match e with
       | HTTPError code fp =>
           Some (bytes <- read fp ;;
                 body <- lift (decode_utf8 bytes) ;;
                 ret (Some code, Some body))
       | Exception _ msg => Some (ret (None, Some msg))
       | KeyboardInterrupt | SystemExit _ => None
       end).

(** *** [wait_for_api] *)

(** The [for _ in range(...)] loop with what follows it, by the number of
    iterations left. *)
Fixpoint poll (attempts : nat) : M bool :=
  match attempts with
  | O =>
      print MsgNotReady ;;
      ret false
  | S rest =>
      '(st, _) <- make_request Zones GET JNull ;;
      if status_is st 200 then
        print MsgReady ;;
        ret true
      else
        print MsgDot ;;
        sleep 1 ;;
        poll rest
  end.

Definition wait_for_api (max_attempts : Z) : M bool :=
  print MsgWaiting ;;
  poll (Z.to_nat max_attempts).

(** *** [create_zone] *)
Definition create_zone (zone_data : json) : M bool :=
  zone_name <- lift (getitem zone_data "name") ;;
  zone_kind <- lift (getitem zone_data "kind") ;;
  print (MsgCreating zone_name zone_kind) ;;
  zone_creation <-
    (if equals_str zone_kind "Slave" then
       masters <- lift (method_get zone_data "masters" (JArr [])) ;;
       nameservers <- lift (method_get zone_data "nameservers" (JArr [])) ;;
       ret (JObj [(lit "name", zone_name);
                  (lit "kind", zone_kind);
                  (lit "masters", masters);
                  (lit "nameservers", nameservers)])
     else
       items <- lift (method_items zone_data) ;;
       ret (JObj (dict_without items (lit "rrsets")))) ;;
  '(st, body) <- make_request Zones POST zone_creation ;;
  if status_is st 201 then
    print MsgCreated ;;
    has_records <-
      (if equals_str zone_kind "Slave" then ret false
       else
         present <- lift (contains zone_data "rrsets") ;;
         if present then
           rrsets <- lift (getitem zone_data "rrsets") ;;
           ret (truthy rrsets)
         else ret false) ;;
    if has_records then
      rrsets <- lift (getitem zone_data "rrsets") ;;
      count <- lift (py_len rrsets) ;;
      print (MsgAdding count) ;;
      let rrsets_payload := JObj [(lit "rrsets", rrsets)] in
      '(patch_status, _) <- make_request (Zone zone_name) PATCH rrsets_payload ;;
      if status_is patch_status 200 || status_is patch_status 204 then
        print MsgRecordsAdded ;;
        ret true
      else
        print (MsgRecordsFailed patch_status) ;;
        ret false
    else ret true
  else if status_is st 409 then
    print MsgAlreadyExists ;;
    ret true
  else
    print (MsgCreateFailed st) ;;
    try_except
      (error_data <- loads body ;;
       print (MsgErrorJson error_data))
      (fun e => if is_Exception e then Some (print (MsgErrorBody body))
                else None) ;;
    ret false.

(** *** [main] *)

(** [for zone_data in zones: if create_zone(zone_data): success_count += 1;
    print()], from a given tally. *)
Fixpoint create_zones (zones : list json) (success_count : nat) : M nat :=
  match zones with
  | [] => ret success_count
  | zone_data :: rest =>
      created <- create_zone zone_data ;;
      let success_count := if created then S success_count else success_count in
      print MsgBlank ;;
      create_zones rest success_count
  end.

(** [for zone in zones_list: print(f"  - {zone['name']} ({zone['kind']})")]. *)
Fixpoint print_zones (zones_list : list json) : M unit :=
  match zones_list with
  | [] => ret tt
  | zone :: rest =>
      zone_name <- lift (getitem zone "name") ;;
      zone_kind <- lift (getitem zone "kind") ;;
      print (MsgZone zone_name zone_kind) ;;
      print_zones rest
  end.

(** The summary and the hints that end [main]. *)
Definition summary : M unit :=
  print MsgSummary ;;
  '(st, body) <- make_request Zones GET JNull ;;
  (if status_is st 200 then
     zones_list <- loads body ;;
     listed <- lift (py_iter zones_list) ;;
     print_zones listed
   else ret tt) ;;
  print MsgQueryHint ;;
  print MsgDigApex ;;
  print MsgDigWww ;;
  print MsgApiHint ;;
  print MsgCurl ;;
  print MsgDeleteHint ;;
  print MsgDeleteNote.

(** [main] from the point where the fixture has been parsed. *)
Definition provision (test_data : json) : M unit :=
  zones <- lift (method_get test_data "zones" (JArr [])) ;;
  total <- lift (py_len zones) ;;
  print (MsgFound total) ;;
  zone_list <- lift (py_iter zones) ;;
  success_count <- create_zones zone_list 0 ;;
  print MsgComplete ;;
  total' <- lift (py_len zones) ;;
  print (MsgProcessed success_count total') ;;
  summary.

Definition default_max_attempts : Z := 30.

Definition main : M unit :=
  print MsgLoading ;;
  found <- exists_ ;;
  if negb found then
    print MsgFileNotFound ;;
    sys_exit 1
  else
    ready <- wait_for_api default_max_attempts ;;
    if negb ready then sys_exit 1
    else
      test_data <- load ;;
      provision test_data.

(** *** [if __name__ == "__main__":] *)
Definition script : M unit :=
  try_except main
    (fun e =>
       match e with
       | KeyboardInterrupt => Some (print MsgInterrupted ;; sys_exit 1)
       | SystemExit _ => Some (raise e)
       | HTTPError _ _ | Exception _ _ =>
           Some (print (MsgError e) ;; sys_exit 1)
       end).

(** The exit status of the interpreter: 0 when the script runs off its
    end; the code of an uncaught [SystemExit]; after an uncaught
    [KeyboardInterrupt] the interpreter ends itself by SIGINT, which is
    reported as 130; 1 (with a traceback) after any other uncaught
    exception. *)
Definition exit_status (r : Res unit) : Z :=
  match r with
  | Ok _ => 0
  | Raise (SystemExit code) => code
  | Raise KeyboardInterrupt => 130
  | Raise (HTTPError _ _) | Raise (Exception _ _) => 1
  end.

(** Running the program in a world: exit status, events, final world. *)
Definition run (w : W) : Z * list event * W :=
  match script w with
  | (r, t, w') => (exit_status r, t, w')
  end.

End Program.

(* ================================================================== *)
(** ** Notions used in the statements *)
(* ================================================================== *)

(** What [make_request] hands to its caller for each answer of [urlopen]
    (see [make_request_reply]). *)
Definition reply (res : urlopen_result) : Res (option Z * option pystr) :=
  match res with
  | Returned r =>
      match body_fp r with
      | ReadOk bs =>
          match decode_utf8 bs with
          | Ok body =>
              Ok (Some (status r), if truthy (JStr body) then Some body else None)
          | Raise (Exception _ msg) => Ok (None, Some msg)
          | Raise e => Raise e
          end
      | ReadFailed (Error _ msg) => Ok (None, Some msg)
      | ReadFailed Interrupt => Raise KeyboardInterrupt
      end
  | ErrorStatus code fp =>
      match fp with
      | ReadOk bs =>
          match decode_utf8 bs with
          | Ok body => Ok (Some code, Some body)
          | Raise e => Raise e
          end
      | ReadFailed f => Raise (exn_of_fault f)
      end
  | Failed (Error _ msg) => Ok (None, Some msg)
  | Failed Interrupt => Raise KeyboardInterrupt
  end.

(** The status [make_request] returned, when it returned one. *)
Definition returned_status (res : urlopen_result) : option Z :=
  match reply res with
  | Ok (st, _) => st
  | Raise _ => None
  end.

(** The request [make_request(url, method, data)] sends. *)
Definition request_of (u : endpoint) (m : http_method) (d : json) : request :=
  Request u (if truthy d then Some d else None) m.

(** The readiness probe: [GET {API_URL}/zones] without a body. *)
Definition probe : request := request_of Zones GET JNull.

(** The HTTP exchanges of a run, in order. *)
Fixpoint exchanges (t : list event) : list (request * urlopen_result) :=
  match t with
  | [] => []
  | EvHTTP req res :: t' => (req, res) :: exchanges t'
  | _ :: t' => exchanges t'
  end.

Definition requests (t : list event) : list request :=
  map fst (exchanges t).

(** The answers to the [GET] requests of a run, in order. *)
Definition get_results (t : list event) : list urlopen_result :=
  map snd (filter (fun x => match method (fst x) with GET => true | _ => false end)
                  (exchanges t)).

Definition is_load (ev : event) : bool :=
  match ev with EvLoad _ => true | _ => false end.

Definition is_write (ev : event) : bool :=
  match ev with
  | EvHTTP req _ => match method req with GET => false | _ => true end
  | _ => false
  end.

Definition is_patch (ev : event) : bool :=
  match ev with
  | EvHTTP req _ => match method req with PATCH => true | _ => false end
  | _ => false
  end.

(** The payload of the creating [POST], by the zone's kind. *)
Definition creation_payload (items : list (pystr * json))
    (zone_name zone_kind : json) : json :=
  if equals_str zone_kind "Slave" then
    JObj [(lit "name", zone_name);
          (lit "kind", zone_kind);
          (lit "masters", dict_get_default items (lit "masters") (JArr []));
          (lit "nameservers", dict_get_default items (lit "nameservers") (JArr []))]
  else JObj (dict_without items (lit "rrsets")).

(** A zone descriptor as the fixture holds them: an object with a [name]
    and a [kind] whose [rrsets], when present, is a list. *)
Definition is_zone_descriptor (z : json) : bool :=
  match z with
  | JObj items =>
      dict_contains items (lit "name") && dict_contains items (lit "kind")
      && match dict_get items (lit "rrsets") with
         | None | Some (JArr _) => true
         | Some _ => false
         end
  | _ => false
  end.

(** An answer that [wait_for_api] takes as "not ready yet". *)
Definition not_ready (res : urlopen_result) : Prop :=
  exists st body, reply res = Ok (st, body) /\ status_is st 200 = false.

(** What one unsuccessful attempt leaves in the log: the probe, the dot,
    the one-second sleep. *)
Definition failed_attempt (res : urlopen_result) : list event :=
  [EvHTTP probe res; EvPrint MsgDot; EvSleep 1 None].

(** How a polling loop that raised [e] ended: in the probe itself, or in
    the sleep after an unsuccessful probe. *)
Definition interrupted_attempt (e : exn) (tail : list event) : Prop :=
  exists res,
    (reply res = Raise e /\ tail = [EvHTTP probe res])
    \/ (not_ready res /\
        exists f, e = exn_of_fault f /\
                  tail = [EvHTTP probe res; EvPrint MsgDot; EvSleep 1 (Some f)]).

(** The three ways the polling loop ends, after [k] unsuccessful attempts
    out of a budget of [n]. *)
Definition poll_end (n k : nat) (r : Res bool) (tail : list event) : Prop :=
  (r = Ok true /\ (k < n)%nat /\
     exists res, returned_status res = Some 200 /\
                 tail = [EvHTTP probe res; EvPrint MsgReady])
  \/ (r = Ok false /\ k = n /\ tail = [EvPrint MsgNotReady])
  \/ (exists e, r = Raise e /\ (k < n)%nat /\ interrupted_attempt e tail).

(** The record sets [create_zone] goes on to patch into a zone it has
    created: the [rrsets] of a zone that is not a Slave, when the key is
    there and its value is true (a non-empty list). *)
Definition records_to_add (items : list (pystr * json)) (zone_kind : json)
    : option json :=
  if equals_str zone_kind "Slave" then None
  else
    match dict_get items (lit "rrsets") with
    | Some rrsets => if truthy rrsets then Some rrsets else None
    | None => None
    end.

(** The [POST] that creates a zone and the [PATCH] that fills it. *)
Definition create_request (items : list (pystr * json))
    (zone_name zone_kind : json) : request :=
  Request Zones (Some (creation_payload items zone_name zone_kind)) POST.

Definition patch_request (zone_name rrsets : json) : request :=
  Request (Zone zone_name) (Some (JObj [(lit "rrsets", rrsets)])) PATCH.

(** What [create_zone] prints about a creation that failed: the status
    line, then the body, parsed when it parses. *)
Definition error_report {W} (E : Env W) (st : option Z) (body : option pystr)
    : list event :=
  [EvPrint (MsgCreateFailed st);
   EvPrint (match body with
            | Some s =>
                match json_loads E s with
                | Some error_data => MsgErrorJson error_data
                | None => MsgErrorBody body
                end
            | None => MsgErrorBody body
            end)].

(** A computation emits only events that satisfy [p]. *)
Definition emits {W A} (p : event -> bool) (m : M W A) : Prop :=
  forall w r t w', m w = (r, t, w') -> forallb p t = true.

(** What provisioning leaves in the log besides the line that reports the
    tally: other console lines and HTTP exchanges. *)
Definition chatter (ev : event) : bool :=
  match ev with
  | EvPrint (MsgProcessed _ _) => false
  | EvPrint _ => true
  | EvHTTP _ _ => true
  | _ => false
  end.

(** What the readiness wait leaves in the log: console lines (not the one
    that reports the tally), [GET] requests, sleeps. *)
Definition polling_event (ev : event) : bool :=
  match ev with
  | EvPrint (MsgProcessed _ _) => false
  | EvPrint _ => true
  | EvHTTP req _ => match method req with GET => true | _ => false end
  | EvSleep _ _ => true
  | _ => false
  end.

(** What provisioning as a whole leaves in the log. *)
Definition provision_event (ev : event) : bool :=
  match ev with
  | EvPrint _ | EvHTTP _ _ => true
  | _ => false
  end.

(** The log of [main] up to the readiness wait. *)
Definition preamble : list event := [EvPrint MsgLoading; EvExists true].

(** The exceptions the top level turns into exit status 1 itself. *)
Definition is_SystemExit (e : exn) : bool :=
  match e with SystemExit _ => true | _ => false end.

(** What the top-level [try] adds to the log of [main]. *)
Definition last_words (r : Res unit) : list event :=
  match r with
  | Ok _ => []
  | Raise KeyboardInterrupt => [EvPrint MsgInterrupted]
  | Raise (SystemExit _) => []
  | Raise e => [EvPrint (MsgError e)]
  end.

(** A computation never raises [SystemExit]. *)
Definition no_exit {W A} (m : M W A) : Prop :=
  forall w e t w', m w = (Raise e, t, w') -> is_SystemExit e = false.

(** The ways a run can end, as the interface of the script names them. *)
Definition completes {W} (E : Env W) (w : W) : Prop :=
  exists t w', main E w = (Ok tt, t, w').

Definition fixture_absent {W} (E : Env W) (w : W) : Prop :=
  fst (path_exists E w) = false.

Definition never_ready {W} (E : Env W) (w : W) : Prop :=
  exists w0 t w1,
    path_exists E w = (true, w0)
    /\ wait_for_api E default_max_attempts w0 = (Ok false, t, w1).

Definition unhandled {W} (E : Env W) (w : W) : Prop :=
  exists e t w',
    main E w = (Raise e, t, w')
    /\ (e = KeyboardInterrupt \/ is_Exception e = true).

(** The number of calls to [time.sleep] in a log. *)
Fixpoint sleeps (t : list event) : nat :=
  match t with
  | [] => O
  | EvSleep _ _ :: t' => S (sleeps t')
  | _ :: t' => sleeps t'
  end.

(** The values [len] accepts. *)
Definition sized (v : json) : bool :=
  match v with
  | JArr _ | JStr _ | JObj _ => true
  | _ => false
  end.

(** The line of the final listing for an entry. *)
Definition zone_line (z : json) : event :=
  match z with
  | JObj items =>
      EvPrint (MsgZone (dict_get_default items (lit "name") JNull)
                       (dict_get_default items (lit "kind") JNull))
  | _ => EvPrint (MsgZone JNull JNull)
  end.

(** The hints that end [main]. *)
Definition hints : list event :=
  [EvPrint MsgQueryHint; EvPrint MsgDigApex; EvPrint MsgDigWww;
   EvPrint MsgApiHint; EvPrint MsgCurl;
   EvPrint MsgDeleteHint; EvPrint MsgDeleteNote].

(** What [create_zone] gets as far as sending, and what the final listing
    can print: an object with a [name] and a [kind]. *)
Definition has_name_and_kind (z : json) : bool :=
  match z with
  | JObj items =>
      dict_contains items (lit "name") && dict_contains items (lit "kind")
  | _ => false
  end.

(* ================================================================== *)
(** ** Worlds to run the script in *)
(* ================================================================== *)

Module Worlds.

Definition refused : urlopen_result :=
  Failed (Error "URLError" (lit "Connection refused")).

Definition answer (st : Z) (body : string) : urlopen_result :=
  Returned (Response st (ReadOk (list_byte_of_string body))).

Definition error_answer (code : Z) (body : list Byte.byte) : urlopen_result :=
  ErrorStatus code (ReadOk body).

(** A world that answers the requests from a script, in order, and
    refuses connections once the script is used up.  The fixture file is
    there or not ([found]); opening and parsing it gives [doc]. *)
Definition scripted (found : bool) (doc : load_result)
    : Env (list urlopen_result) :=
  {| path_exists := fun w => (found, w);
     open_json_load := fun w => (doc, w);
     urlopen := fun _ w =>
       match w with
       | [] => (refused, [])
       | res :: w' => (res, w')
       end;
     time_sleep := fun _ w => (None, w);
     json_loads := fun _ => Some (JArr []) |}.

(** A server that is up: [GET] gives 200, [POST] 201, [PATCH] 204. *)
Definition healthy (doc : json) : Env unit :=
  {| path_exists := fun w => (true, w);
     open_json_load := fun w => (Loaded doc, w);
     urlopen := fun req w =>
       (match method req with
        | GET => answer 200 "[]"
        | POST => answer 201 "{}"
        | PATCH => answer 204 ""
        end, w);
     time_sleep := fun _ w => (None, w);
     json_loads := fun _ => Some (JArr []) |}.

(** A server that is down for good. *)
Definition down (doc : json) : Env unit :=
  {| path_exists := fun w => (true, w);
     open_json_load := fun w => (Loaded doc, w);
     urlopen := fun _ w => (refused, w);
     time_sleep := fun _ w => (None, w);
     json_loads := fun _ => None |}.

Definition zone_items (name kind : string) (rest : list (pystr * json))
    : list (pystr * json) :=
  (lit "name", JStr (lit name)) :: (lit "kind", JStr (lit kind)) :: rest.

Definition a_record : json :=
  JObj [(lit "name", JStr (lit "www.a.test."));
        (lit "type", JStr (lit "A"));
        (lit "ttl", JInt 300)].

Definition native_items : list (pystr * json) :=
  zone_items "a.test." "Native" [(lit "rrsets", JArr [a_record])].

Definition empty_items : list (pystr * json) :=
  zone_items "b.test." "Master" [(lit "rrsets", JArr [])].

Definition slave_items : list (pystr * json) :=
  zone_items "c.test." "Slave"
    [(lit "masters", JArr [JStr (lit "192.0.2.1")]);
     (lit "rrsets", JArr [a_record])].

(** A descriptor without a [name]. *)
Definition nameless_items : list (pystr * json) :=
  [(lit "kind", JStr (lit "Native"))].

Definition fixture_items (zones : list json) : list (pystr * json) :=
  [(lit "zones", JArr zones)].

(** An HTTP error whose body is not UTF-8. *)
Definition garbled_error : urlopen_result :=
  error_answer 500 [xff].

(** Like [scripted], with a given parser for [json.loads]. *)
Definition scripted_with (parse : pystr -> option json) (found : bool)
    (doc : load_result) : Env (list urlopen_result) :=
  {| path_exists := fun w => (found, w);
     open_json_load := fun w => (doc, w);
     urlopen := fun _ w =>
       match w with
       | [] => (refused, [])
       | res :: w' => (res, w')
       end;
     time_sleep := fun _ w => (None, w);
     json_loads := parse |}.

(** A success response whose body is not UTF-8. *)
Definition garbled_answer (st : Z) : urlopen_result :=
  Returned (Response st (ReadOk [xff])).

(** A zone whose [rrsets] is a number. *)
Definition odd_items : list (pystr * json) :=
  zone_items "d.test." "Native" [(lit "rrsets", JInt 5)].

(** Two entries of a zone listing. *)
Definition listing : list json :=
  [JObj (zone_items "a.test." "Native" [(lit "serial", JInt 1)]);
   JObj (zone_items "c.test." "Slave" [])].

End Worlds.

(* ================================================================== *)
(** ** Running computations *)
(* ================================================================== *)

Section MonadFacts.

Context {W : Type}.

Lemma bind_Ok {A B} (m : M W A) (f : A -> M W B) w a t1 w1 :
  m w = (Ok a, t1, w1) ->
  bind m f w = (let '(r, t2, w2) := f a w1 in (r, t1 ++ t2, w2)).
Proof. intros H. unfold bind. rewrite H. reflexivity. Qed.

Lemma bind_Raise {A B} (m : M W A) (f : A -> M W B) w e t1 w1 :
  m w = (Raise e, t1, w1) ->
  bind m f w = (Raise e, t1, w1).
Proof. intros H. unfold bind. rewrite H. reflexivity. Qed.

(** A [bind] that ran either stopped in its first part or went through
    both. *)
Lemma bind_inv {A B} (m : M W A) (f : A -> M W B) w r t w' :
  bind m f w = (r, t, w') ->
  (exists e, r = Raise e /\ m w = (Raise e, t, w'))
  \/ (exists a t1 w1 t2,
        m w = (Ok a, t1, w1) /\ f a w1 = (r, t2, w') /\ t = t1 ++ t2).
Proof.
  unfold bind. destruct (m w) as [[[a | e] t1] w1].
  - destruct (f a w1) as [[r2 t2] w2] eqn:Hf. intros H.
    injection H as <- <- <-. right. exists a, t1, w1, t2. auto.
  - intros H. injection H as <- <- <-. left. exists e. auto.
Qed.

Lemma print_run (m : message) (w : W) :
  print m w = (Ok tt, [EvPrint m], w).
Proof. reflexivity. Qed.

Lemma bind_ret {A B} (a : A) (f : A -> M W B) w :
  bind (ret a) f w = f a w.
Proof. unfold bind, ret. now destruct (f a w) as [[r t] w']. Qed.

Lemma bind_lift_Ok {A B} (a : A) (f : A -> M W B) w :
  bind (lift (Ok a)) f w = f a w.
Proof. unfold bind, lift. now destruct (f a w) as [[r t] w']. Qed.

Lemma bind_lift_Raise {A B} (e : exn) (f : A -> M W B) w :
  bind (lift (Raise e)) f w = (Raise e, [], w).
Proof. reflexivity. Qed.

Lemma bind_raise {A B} (e : exn) (f : A -> M W B) w :
  bind (raise e) f w = (Raise e, [], w).
Proof. reflexivity. Qed.

Lemma bind_print {B} (m : message) (f : unit -> M W B) w :
  bind (print m) f w = (let '(r, t, w') := f tt w in (r, EvPrint m :: t, w')).
Proof. reflexivity. Qed.

Lemma bind_assoc {A B C} (m : M W A) (f : A -> M W B) (g : B -> M W C) w :
  bind (bind m f) g w = bind m (fun a => bind (f a) g) w.
Proof.
  unfold bind. destruct (m w) as [[[a | e] t1] w1]; [ | reflexivity].
  destruct (f a w1) as [[[b | e] t2] w2]; [ | reflexivity].
  destruct (g b w2) as [[r t3] w3]. now rewrite app_assoc.
Qed.

Lemma bind_if {A B} (b : bool) (m1 m2 : M W A) (f : A -> M W B) w :
  bind (if b then m1 else m2) f w = (if b then bind m1 f w else bind m2 f w).
Proof. now destruct b. Qed.

End MonadFacts.

(** Runs the pure steps at the head of a computation. *)
Ltac run :=
  repeat (first [ rewrite bind_assoc
                | rewrite bind_lift_Ok
                | rewrite bind_ret
                | rewrite bind_print ];
          cbv beta).

(** [make_request] sends one request and hands back [reply] of the
    answer: the [try] statement, case by case. *)
Lemma make_request_reply {W} (E : Env W) u m d w :
  make_request E u m d w =
  (let '(res, w') := urlopen E (request_of u m d) w in
   (reply res, [EvHTTP (request_of u m d) res], w')).
Proof.
  unfold make_request, request_of, try_except, bind, urlopen_.
  destruct (urlopen E _ w) as [res w'].
  destruct res as [[st fp] | code fp | f]; simpl.
  - destruct fp as [bs | [ | cls msg]]; simpl; try reflexivity.
    unfold lift, decode_utf8. destruct (Utf8.decode bs); reflexivity.
  - destruct fp as [bs | [ | cls msg]]; simpl; try reflexivity.
    unfold lift, decode_utf8. destruct (Utf8.decode bs); reflexivity.
  - destruct f; reflexivity.
Qed.

Lemma bind_make_request {W B} (E : Env W) u m d
    (f : option Z * option pystr -> M W B) w :
  bind (make_request E u m d) f w =
  (let '(res, w1) := urlopen E (request_of u m d) w in
   match reply res with
   | Ok x => let '(r, t, w') := f x w1 in (r, EvHTTP (request_of u m d) res :: t, w')
   | Raise e => (Raise e, [EvHTTP (request_of u m d) res], w1)
   end).
Proof.
  unfold bind. rewrite make_request_reply.
  destruct (urlopen E _ w) as [res w1]. now destruct (reply res).
Qed.

(* ================================================================== *)
(** ** Readiness polling *)
(* ================================================================== *)

Section Polling.

Context {W : Type}.
Variable E : Env W.

Lemma status_is_true st n : status_is st n = true <-> st = Some n.
Proof.
  destruct st as [s | ]; simpl.
  - rewrite Z.eqb_eq. split; congruence.
  - split; discriminate.
Qed.

Lemma poll_shape (n : nat) : forall w r t w',
  poll E n w = (r, t, w') ->
  exists fails tail,
    t = flat_map failed_attempt fails ++ tail
    /\ Forall not_ready fails
    /\ poll_end n (List.length fails) r tail.
Proof.
  induction n as [ | n IH]; intros w r t w' H.
  - injection H as <- <- <-. exists [], [EvPrint MsgNotReady].
    repeat split; auto. right. left. auto.
  - cbn [poll] in H. unfold bind at 1 in H.
    rewrite make_request_reply in H. fold probe in H.
    destruct (urlopen E probe w) as [res w1].
    destruct (reply res) as [[st body] | e] eqn:Hreply.
    + destruct (status_is st 200) eqn:Hst.
      * injection H as <- <- <-.
        exists [], [EvHTTP probe res; EvPrint MsgReady].
        repeat split; auto. left.
        split; [reflexivity | split; [simpl; lia | ]].
        exists res. split; [ | reflexivity].
        unfold returned_status. rewrite Hreply.
        now apply status_is_true.
      * unfold bind at 1 in H. rewrite print_run in H.
        unfold bind at 1 in H. unfold sleep at 1 in H.
        destruct (time_sleep E 1 w1) as [[f | ] w2].
        -- injection H as <- <- <-.
           exists [], [EvHTTP probe res; EvPrint MsgDot; EvSleep 1 (Some f)].
           repeat split; auto. right. right.
           exists (exn_of_fault f). split; [reflexivity | split; [simpl; lia | ]].
           exists res. right. split; [exists st, body; auto | ].
           exists f. auto.
        -- destruct (poll E n w2) as [[r2 t2] w3] eqn:Hpoll.
           injection H as <- <- <-.
           destruct (IH _ _ _ _ Hpoll) as (fails & tail & -> & Hnr & Hend).
           exists (res :: fails), tail.
           split; [reflexivity | ].
           split; [constructor; [exists st, body; auto | assumption] | ].
           destruct Hend as [(-> & Hlt & Hres) | [(-> & Hlen & ->) | (e & -> & Hlt & Hint)]].
           ++ left. split; [reflexivity | split; [simpl; lia | assumption]].
           ++ right. left. repeat split. simpl. now rewrite Hlen.
           ++ right. right. exists e.
              split; [reflexivity | split; [simpl; lia | assumption]].
    + injection H as <- <- <-.
      exists [], [EvHTTP probe res].
      repeat split; auto. right. right. exists e.
      split; [reflexivity | split; [simpl; lia | ]].
      exists res. left. auto.
Qed.

End Polling.

(* ================================================================== *)
(** ** Reading a log *)
(* ================================================================== *)

Lemma exchanges_app (t1 t2 : list event) :
  exchanges (t1 ++ t2) = exchanges t1 ++ exchanges t2.
Proof.
  induction t1 as [ | ev t1 IH]; simpl; [reflexivity | ].
  destruct ev; simpl; now rewrite ?IH.
Qed.

Lemma requests_app (t1 t2 : list event) :
  requests (t1 ++ t2) = requests t1 ++ requests t2.
Proof. unfold requests. now rewrite exchanges_app, map_app. Qed.

Lemma requests_print (m : message) (t : list event) :
  requests (EvPrint m :: t) = requests t.
Proof. reflexivity. Qed.

Lemma get_results_app (t1 t2 : list event) :
  get_results (t1 ++ t2) = get_results t1 ++ get_results t2.
Proof. unfold get_results. now rewrite exchanges_app, filter_app, map_app. Qed.

Lemma exchanges_failed_attempts (fails : list urlopen_result) :
  exchanges (flat_map failed_attempt fails) = map (pair probe) fails.
Proof.
  induction fails as [ | res fails IH]; simpl; [reflexivity | ].
  now rewrite IH.
Qed.

Lemma requests_failed_attempts (fails : list urlopen_result) :
  requests (flat_map failed_attempt fails) = repeat probe (List.length fails).
Proof.
  unfold requests. rewrite exchanges_failed_attempts.
  induction fails as [ | res fails IH]; simpl; [reflexivity | ].
  now rewrite IH.
Qed.

Lemma get_results_failed_attempts (fails : list urlopen_result) :
  get_results (flat_map failed_attempt fails) = fails.
Proof.
  unfold get_results. rewrite exchanges_failed_attempts.
  induction fails as [ | res fails IH]; simpl; [reflexivity | ].
  now rewrite IH.
Qed.

(** The requests of the last, unfinished round of polling. *)
Lemma requests_poll_end {n k r tail} :
  poll_end n k r tail ->
  (k = n /\ requests tail = []) \/ ((k < n)%nat /\ requests tail = [probe]).
Proof.
  intros [(_ & Hlt & res & _ & ->)
         | [(_ & Hlen & ->)
           | (e & _ & Hlt & res & [(_ & ->) | (_ & f & _ & ->)])]];
    auto.
Qed.

(** The log of [wait_for_api]: the opening line, the unsuccessful rounds,
    the end. *)
Lemma wait_for_api_shape {W} (E : Env W) {max_attempts : Z} {w r t w'} :
  wait_for_api E max_attempts w = (r, t, w') ->
  exists fails tail,
    t = EvPrint MsgWaiting :: flat_map failed_attempt fails ++ tail
    /\ Forall not_ready fails
    /\ poll_end (Z.to_nat max_attempts) (List.length fails) r tail.
Proof.
  unfold wait_for_api, bind. rewrite print_run.
  destruct (poll E (Z.to_nat max_attempts) w) as [[r2 t2] w2] eqn:Hpoll.
  intros H. injection H as <- <- <-.
  destruct (poll_shape E _ _ _ _ _ Hpoll) as (fails & tail & -> & Hnr & Hend).
  exists fails, tail. auto.
Qed.

(** C7: [wait_for_api] polls the readiness endpoint in sequence.  Its log
    is the opening line, then one round (probe [GET {API_URL}/zones], dot,
    one-second sleep) per attempt that returned a status other than 200,
    then the end: either the first probe that returned 200 followed by
    nothing but the "ready" line, with [True] returned, before the budget
    is used up; or, after exactly [max_attempts] unsuccessful rounds, the
    error line, with [False] returned; or an attempt cut short by an
    exception.  All requests are that probe, and there are at most
    [max_attempts] of them. *)
Theorem wait_for_api_polls {W} (E : Env W) (max_attempts : Z) w r t w' :
  wait_for_api E max_attempts w = (r, t, w') ->
  exists fails tail,
    t = EvPrint MsgWaiting :: flat_map failed_attempt fails ++ tail
    /\ Forall not_ready fails
    /\ poll_end (Z.to_nat max_attempts) (List.length fails) r tail
    /\ Forall (eq probe) (requests t)
    /\ (List.length (requests t) <= Z.to_nat max_attempts)%nat.
Proof.
  intros H.
  destruct (wait_for_api_shape E H) as (fails & tail & -> & Hnr & Hend).
  exists fails, tail. repeat split; auto.
  - rewrite requests_print.
    rewrite requests_app, requests_failed_attempts.
    apply Forall_app. split.
    + apply Forall_forall. intros x Hx. now apply repeat_spec in Hx.
    + destruct (requests_poll_end Hend) as [(_ & ->) | (_ & ->)]; auto.
  - rewrite requests_print.
    rewrite requests_app, requests_failed_attempts, length_app, repeat_length.
    destruct (requests_poll_end Hend) as [(Hk & ->) | (Hk & ->)]; simpl; lia.
Qed.

(** Two refused connections, then the API answers. *)
Lemma wait_for_api_polls_witness :
  exists fails tail,
    [EvPrint MsgWaiting;
     EvHTTP probe Worlds.refused; EvPrint MsgDot; EvSleep 1 None;
     EvHTTP probe Worlds.refused; EvPrint MsgDot; EvSleep 1 None;
     EvHTTP probe (Worlds.answer 200 "[]"); EvPrint MsgReady]
    = EvPrint MsgWaiting :: flat_map failed_attempt fails ++ tail
    /\ Forall not_ready fails
    /\ poll_end (Z.to_nat 30) (List.length fails) (Ok true) tail
    /\ Forall (eq probe)
         (requests [EvPrint MsgWaiting;
                    EvHTTP probe Worlds.refused; EvPrint MsgDot; EvSleep 1 None;
                    EvHTTP probe Worlds.refused; EvPrint MsgDot; EvSleep 1 None;
                    EvHTTP probe (Worlds.answer 200 "[]"); EvPrint MsgReady])
    /\ (List.length
          (requests [EvPrint MsgWaiting;
                     EvHTTP probe Worlds.refused; EvPrint MsgDot; EvSleep 1 None;
                     EvHTTP probe Worlds.refused; EvPrint MsgDot; EvSleep 1 None;
                     EvHTTP probe (Worlds.answer 200 "[]"); EvPrint MsgReady])
        <= Z.to_nat 30)%nat.
Proof.
  apply (@wait_for_api_polls _ (Worlds.scripted true (Loaded JNull)) 30
           [Worlds.refused; Worlds.refused; Worlds.answer 200 "[]"]
           (Ok true) _ []).
  reflexivity.
Defined.

(* ================================================================== *)
(** ** Strings and dicts *)
(* ================================================================== *)

Lemma str_eqb_eq (a b : pystr) : str_eqb a b = true <-> a = b.
Proof.
  revert b. induction a as [ | x a IH]; intros [ | y b]; simpl;
    try (split; [discriminate | discriminate]); [tauto | ].
  rewrite andb_true_iff, N.eqb_eq, IH. split.
  - intros [-> ->]. reflexivity.
  - intros H. injection H as -> ->. auto.
Qed.

Lemma dict_get_without (items : list (pystr * json)) (k key : pystr) :
  str_eqb k key = false ->
  dict_get (dict_without items key) k = dict_get items k.
Proof.
  intros Hk. induction items as [ | [k' v] items IH]; simpl; [reflexivity | ].
  destruct (str_eqb k' key) eqn:Hkey; simpl.
  - destruct (str_eqb k' k) eqn:Hk'; [ | exact IH].
    apply str_eqb_eq in Hk'. subst k'. congruence.
  - destruct (str_eqb k' k); [reflexivity | exact IH].
Qed.

Lemma dict_get_without_same (items : list (pystr * json)) (key : pystr) :
  dict_get (dict_without items key) key = None.
Proof.
  induction items as [ | [k' v] items IH]; simpl; [reflexivity | ].
  destruct (str_eqb k' key) eqn:Hkey; simpl; [exact IH | ].
  now rewrite Hkey.
Qed.

Lemma truthy_dict_with (items : list (pystr * json)) (k : pystr) (v : json) :
  dict_get items k = Some v -> truthy (JObj items) = true.
Proof. destruct items; [discriminate | reflexivity]. Qed.

(** The creation payload is never empty, so it is always sent. *)
Lemma truthy_creation_payload items n k :
  dict_get items (lit "name") = Some n ->
  truthy (creation_payload items n k) = true.
Proof.
  intros Hn. unfold creation_payload.
  destruct (equals_str k "Slave"); [reflexivity | ].
  apply truthy_dict_with with (k := lit "name") (v := n).
  now rewrite dict_get_without.
Qed.

(* ================================================================== *)
(** ** [create_zone], case by case *)
(* ================================================================== *)

Section CreateZone.

Context {W : Type}.
Variable E : Env W.

Lemma report_run st body (w : W) :
  bind (print (MsgCreateFailed st))
    (fun _ => bind
       (try_except
          (bind (loads E body) (fun error_data => print (MsgErrorJson error_data)))
          (fun e => if is_Exception e then Some (print (MsgErrorBody body))
                    else None))
       (fun _ => ret false)) w
  = (Ok false, error_report E st body, w).
Proof.
  unfold error_report, bind, try_except, loads, print, emit, ret, raise.
  destruct body as [s | ]; simpl; [ | reflexivity].
  destruct (json_loads E s); reflexivity.
Qed.

(** The whole of [create_zone] on a dict that has a [name] and a [kind]:
    one [POST], then by the status returned. *)
Lemma create_zone_run items n k w :
  dict_get items (lit "name") = Some n ->
  dict_get items (lit "kind") = Some k ->
  create_zone E (JObj items) w =
  (let req := create_request items n k in
   let '(res, w1) := urlopen E req w in
   let head := [EvPrint (MsgCreating n k); EvHTTP req res] in
   match reply res with
   | Raise e => (Raise e, head, w1)
   | Ok (st, body) =>
       if status_is st 201 then
         match records_to_add items k with
         | None => (Ok true, head ++ [EvPrint MsgCreated], w1)
         | Some rrsets =>
             match py_len rrsets with
             | Raise e => (Raise e, head ++ [EvPrint MsgCreated], w1)
             | Ok count =>
                 let preq := patch_request n rrsets in
                 let '(pres, w2) := urlopen E preq w1 in
                 let mid := head ++ [EvPrint MsgCreated; EvPrint (MsgAdding count);
                                     EvHTTP preq pres] in
                 match reply pres with
                 | Raise e => (Raise e, mid, w2)
                 | Ok (ps, _) =>
                     if status_is ps 200 || status_is ps 204
                     then (Ok true, mid ++ [EvPrint MsgRecordsAdded], w2)
                     else (Ok false, mid ++ [EvPrint (MsgRecordsFailed ps)], w2)
                 end
             end
         end
       else if status_is st 409 then
         (Ok true, head ++ [EvPrint MsgAlreadyExists], w1)
       else (Ok false, head ++ error_report E st body, w1)
   end).
Proof.
  intros Hn Hk.
  pose proof (truthy_creation_payload items n k Hn) as Htruthy.
  unfold create_zone, getitem. rewrite Hn. run. rewrite Hk. run.
  unfold create_request, records_to_add, creation_payload in *.
  destruct (equals_str k "Slave") eqn:Hslave.
  - (* a Slave zone: the reduced payload, never a PATCH *)
    unfold method_get. run.
    rewrite bind_make_request. unfold request_of. rewrite Htruthy.
    destruct (urlopen E _ w) as [res w1].
    destruct (reply res) as [[st body] | e]; [ | reflexivity].
    destruct (status_is st 201).
    + run. reflexivity.
    + destruct (status_is st 409); [reflexivity | ].
      rewrite report_run. reflexivity.
  - (* any other kind: the descriptor without its rrsets *)
    unfold method_items. run.
    rewrite bind_make_request. unfold request_of. rewrite Htruthy.
    destruct (urlopen E _ w) as [res w1].
    destruct (reply res) as [[st body] | e]; [ | reflexivity].
    destruct (status_is st 201).
    + run. unfold contains, dict_contains, getitem.
      destruct (dict_get items (lit "rrsets")) as [rrsets | ] eqn:Hrr.
      * run. destruct (truthy rrsets).
        -- run.
           destruct (py_len rrsets) as [count | e]; [ | reflexivity].
           run. rewrite bind_make_request.
           unfold request_of, patch_request. simpl truthy. cbv iota.
           destruct (urlopen E _ w1) as [pres w2].
           destruct (reply pres) as [[ps pbody] | e]; [ | reflexivity].
           destruct (status_is ps 200 || status_is ps 204); reflexivity.
        -- run. reflexivity.
      * run. reflexivity.
    + destruct (status_is st 409); [reflexivity | ].
      rewrite report_run. reflexivity.
Qed.

End CreateZone.

Section CreateZoneFacts.

Context {W : Type}.
Variable E : Env W.

(** Without a [name] or a [kind], [create_zone] raises at once. *)
Lemma create_zone_missing_key items :
  dict_get items (lit "name") = None \/ dict_get items (lit "kind") = None ->
  exists key,
    (key = "name"%string \/ key = "kind"%string)
    /\ forall w, create_zone E (JObj items) w = (Raise (KeyError key), [], w).
Proof.
  intros Hmiss. unfold create_zone, getitem.
  destruct (dict_get items (lit "name")) as [n | ] eqn:Hn.
  - destruct Hmiss as [Hmiss | Hmiss]; [discriminate | ].
    rewrite Hmiss. exists "kind"%string. split; [auto | ]. intros w. now run.
  - exists "name"%string. auto.
Qed.

(** Anything that is not a dict with a [name] and a [kind] makes
    [create_zone] raise before it prints or sends anything. *)
Lemma create_zone_cases z :
  (exists items n k, z = JObj items
                     /\ dict_get items (lit "name") = Some n
                     /\ dict_get items (lit "kind") = Some k)
  \/ (exists e, is_Exception e = true
                /\ forall w, create_zone E z w = (Raise e, [], w)).
Proof.
  destruct z as [ | b | i | f | s | xs | items];
    try (right; eexists; split; [ | intros w; reflexivity]; reflexivity).
  destruct (dict_get items (lit "name")) as [n | ] eqn:Hn.
  - destruct (dict_get items (lit "kind")) as [k | ] eqn:Hk.
    + left. exists items, n, k. auto.
    + right. exists (KeyError "kind"). split; [reflexivity | ]. intros w.
      unfold create_zone, getitem. rewrite Hn, Hk. now run.
  - right. exists (KeyError "name"). split; [reflexivity | ]. intros w.
    unfold create_zone, getitem. now rewrite Hn.
Qed.

(** C2: for a zone descriptor of kind "Slave", the payload of the creating
    [POST {API_URL}/zones] has exactly the keys name, kind, masters and
    nameservers, so no [rrsets]; that [POST] is the only request
    [create_zone] makes for the zone, so no [PATCH] is issued, whatever
    [rrsets] the descriptor carries and whatever the server answers. *)
Theorem slave_zone_payload_and_no_patch items n w r t w' :
  dict_get items (lit "name") = Some n ->
  dict_get items (lit "kind") = Some (JStr (lit "Slave")) ->
  create_zone E (JObj items) w = (r, t, w') ->
  exists payload,
    requests t = [Request Zones (Some (JObj payload)) POST]
    /\ dict_keys payload = [lit "name"; lit "kind"; lit "masters"; lit "nameservers"]
    /\ dict_contains payload (lit "rrsets") = false
    /\ existsb is_patch t = false.
Proof.
  intros Hn Hk H. rewrite (create_zone_run E items _ _ w Hn Hk) in H.
  unfold create_request, creation_payload, records_to_add in H.
  change (equals_str (JStr (lit "Slave")) "Slave") with true in H.
  cbv iota zeta in H.
  exists [(lit "name", n); (lit "kind", JStr (lit "Slave"));
          (lit "masters", dict_get_default items (lit "masters") (JArr []));
          (lit "nameservers",
           dict_get_default items (lit "nameservers") (JArr []))].
  destruct (urlopen E _ w) as [res w1].
  destruct (reply res) as [[st body] | e];
    [ destruct (status_is st 201); [ | destruct (status_is st 409)] | ];
    injection H as <- <- <-; repeat split.
Qed.

(** One turn of the loop of [main] over the zones. *)
Lemma create_zones_step {z w created t w1} rest c :
  create_zone E z w = (Ok created, t, w1) ->
  create_zones E (z :: rest) c w =
  (let '(r2, t2, w2) := create_zones E rest (if created then S c else c) w1 in
   (r2, t ++ EvPrint MsgBlank :: t2, w2)).
Proof.
  intros H. cbn [create_zones]. erewrite bind_Ok by exact H. run.
  now destruct (create_zones E rest _ w1) as [[r2 t2] w2].
Qed.

Lemma create_zones_raise {z w e t w1} rest c :
  create_zone E z w = (Raise e, t, w1) ->
  create_zones E (z :: rest) c w = (Raise e, t, w1).
Proof. intros H. cbn [create_zones]. now erewrite bind_Raise by exact H. Qed.

(** From an HTTP event found in an explicit log to the request and the
    answer it holds. *)
Ltac find_exchange H :=
  simpl in H;
  repeat (destruct H as [H | H]; [try discriminate H | ]);
  try contradiction H;
  try (injection H as <- <-).

Lemma returned_status_reply {res st body n} :
  reply res = Ok (st, body) -> returned_status res = Some n -> st = Some n.
Proof. unfold returned_status. now intros ->. Qed.

(** C3: when the [POST] that creates a zone returns status 409,
    [create_zone] returns [True], that [POST] is the only request made for
    the zone (no [PATCH]), and the loop of [main] counts the zone: it goes
    on to the next zone with the tally increased by one.  This holds for
    any zone descriptor. *)
Theorem conflict_counts_as_success z w r t w' req res :
  create_zone E z w = (r, t, w') ->
  In (EvHTTP req res) t ->
  method req = POST ->
  returned_status res = Some 409 ->
  r = Ok true
  /\ requests t = [req]
  /\ existsb is_patch t = false
  /\ forall rest c,
       create_zones E (z :: rest) c w =
       (let '(r2, t2, w2) := create_zones E rest (S c) w' in
        (r2, t ++ EvPrint MsgBlank :: t2, w2)).
Proof.
  intros H Hin Hpost Hst.
  assert (Hgoal : r = Ok true /\ requests t = [req] /\ existsb is_patch t = false).
  { destruct (create_zone_cases z)
      as [(items & n & k & -> & Hn & Hk) | (e & _ & Hraise)].
    2: { rewrite Hraise in H. injection H as <- <- <-. contradiction Hin. }
    rewrite (create_zone_run E items _ _ w Hn Hk) in H.
    cbv zeta in H. destruct (urlopen E _ w) as [res1 w1].
    destruct (reply res1) as [[st body] | e] eqn:Hreply.
    - destruct (status_is st 201) eqn:H201.
      + (* a 201 is not a 409 *)
        apply status_is_true in H201. subst st.
        assert (Hres : res = res1 -> False).
        { intros ->. pose proof (returned_status_reply Hreply Hst). discriminate. }
        destruct (records_to_add items k) as [rrsets | ].
        * destruct (py_len rrsets) as [count | e].
          -- destruct (urlopen E _ w1) as [pres w2].
             destruct (reply pres) as [[ps pbody] | e];
               [destruct (status_is ps 200 || status_is ps 204) | ];
               injection H as <- <- <-; find_exchange Hin;
               solve [now destruct Hres | discriminate Hpost].
          -- injection H as <- <- <-. find_exchange Hin. now destruct Hres.
        * injection H as <- <- <-. find_exchange Hin. now destruct Hres.
      + destruct (status_is st 409) eqn:H409.
        * injection H as <- <- <-. find_exchange Hin. repeat split.
        * injection H as <- <- <-. unfold error_report in Hin.
          find_exchange Hin.
          pose proof (returned_status_reply Hreply Hst) as ->.
          discriminate H409.
    - injection H as <- <- <-. find_exchange Hin.
      unfold returned_status in Hst. rewrite Hreply in Hst. discriminate. }
  destruct Hgoal as (-> & Hreq & Hpatch). repeat split; auto.
  intros rest c. now rewrite (create_zones_step rest c H).
Qed.

(** C4: for a zone that is not a Slave and has a non-empty list of
    [rrsets], when the creating [POST] returns 201 and the [PATCH] returns
    a status that is neither 200 nor 204, [create_zone] returns [False];
    the requests made for the zone are that [POST] and that one [PATCH]
    carrying all the record sets, and nothing after them (the zone is not
    removed again); and the loop of [main] goes on to the next zone with
    the tally unchanged. *)
Theorem failed_patch_fails_zone items n k x xs w r t w' :
  dict_get items (lit "name") = Some n ->
  dict_get items (lit "kind") = Some k ->
  equals_str k "Slave" = false ->
  dict_get items (lit "rrsets") = Some (JArr (x :: xs)) ->
  create_zone E (JObj items) w = (r, t, w') ->
  (forall req res, In (EvHTTP req res) t -> method req = POST ->
                   returned_status res = Some 201) ->
  (forall req res, In (EvHTTP req res) t -> method req = PATCH ->
                   exists st body, reply res = Ok (st, body)
                                   /\ st <> Some 200 /\ st <> Some 204) ->
  r = Ok false
  /\ requests t = [create_request items n k; patch_request n (JArr (x :: xs))]
  /\ forall rest c,
       create_zones E (JObj items :: rest) c w =
       (let '(r2, t2, w2) := create_zones E rest c w' in
        (r2, t ++ EvPrint MsgBlank :: t2, w2)).
Proof.
  intros Hn Hk Hslave Hrr H Hposts Hpatches.
  assert (Hgoal : r = Ok false
            /\ requests t = [create_request items n k;
                             patch_request n (JArr (x :: xs))]).
  { rewrite (create_zone_run E items _ _ w Hn Hk) in H.
    unfold records_to_add in H. rewrite Hslave, Hrr in H.
    cbn [truthy py_len] in H. cbv zeta in H.
    destruct (urlopen E _ w) as [res w1].
    specialize (Hposts (create_request items n k) res).
    destruct (reply res) as [[st body] | e] eqn:Hreply.
    - destruct (status_is st 201) eqn:H201.
      + destruct (urlopen E _ w1) as [pres w2].
        specialize (Hpatches (patch_request n (JArr (x :: xs))) pres).
        destruct (reply pres) as [[ps pbody] | e] eqn:Hpreply.
        * destruct (status_is ps 200 || status_is ps 204) eqn:Hps;
            injection H as <- <- <-; [ | now split].
          destruct (Hpatches ltac:(simpl; tauto) eq_refl)
            as (st' & body' & Heq & H200 & H204).
          injection Heq as <- <-.
          apply orb_true_iff in Hps.
          destruct Hps as [Hps | Hps]; apply status_is_true in Hps; congruence.
        * injection H as <- <- <-.
          destruct (Hpatches ltac:(simpl; tauto) eq_refl)
            as (st' & body' & Heq & _).
          discriminate Heq.
      + assert (Hst : returned_status res = Some 201).
        { apply Hposts; [ | reflexivity].
          destruct (status_is st 409); injection H as <- <- <-; simpl; tauto. }
        pose proof (returned_status_reply Hreply Hst) as ->. discriminate H201.
    - injection H as <- <- <-.
      assert (Hst : returned_status res = Some 201)
        by (apply Hposts; [simpl; tauto | reflexivity]).
      unfold returned_status in Hst. rewrite Hreply in Hst. discriminate. }
  destruct Hgoal as (-> & Hreq). repeat split; auto.
  intros rest c. now rewrite (create_zones_step rest c H).
Qed.

(** C8: for a Native or Master zone whose [rrsets] is absent or the empty
    list, the only request [create_zone] makes is the creating [POST]: no
    [PATCH] is issued, whatever the server answers. *)
Theorem no_records_no_patch items n k w r t w' :
  dict_get items (lit "name") = Some n ->
  dict_get items (lit "kind") = Some k ->
  k = JStr (lit "Native") \/ k = JStr (lit "Master") ->
  dict_get items (lit "rrsets") = None
  \/ dict_get items (lit "rrsets") = Some (JArr []) ->
  create_zone E (JObj items) w = (r, t, w') ->
  requests t = [create_request items n k]
  /\ existsb is_patch t = false.
Proof.
  intros Hn Hk Hkind Hrr H.
  rewrite (create_zone_run E items _ _ w Hn Hk) in H.
  assert (Hnone : records_to_add items k = None).
  { unfold records_to_add.
    destruct Hkind as [-> | ->]; destruct Hrr as [-> | ->]; reflexivity. }
  rewrite Hnone in H. cbv zeta in H.
  destruct (urlopen E _ w) as [res w1].
  destruct (reply res) as [[st body] | e];
    [ destruct (status_is st 201); [ | destruct (status_is st 409)] | ];
    injection H as <- <- <-; split; reflexivity.
Qed.

End CreateZoneFacts.

(* ================================================================== *)
(** ** What a computation can emit *)
(* ================================================================== *)

Section Emits.

Context {W : Type}.
Variable E : Env W.
Variable p : event -> bool.

Lemma emits_ret {A} (a : A) : emits p (@ret W A a).
Proof. intros w r t w' H. now injection H as <- <- <-. Qed.

Lemma emits_raise {A} (e : exn) : emits p (@raise W A e).
Proof. intros w r t w' H. now injection H as <- <- <-. Qed.

Lemma emits_lift {A} (x : Res A) : emits p (@lift W A x).
Proof. intros w r t w' H. now injection H as <- <- <-. Qed.

Lemma emits_print (m : message) :
  p (EvPrint m) = true -> emits p (@print W m).
Proof. intros Hp w r t w' H. injection H as <- <- <-. simpl. now rewrite Hp. Qed.

Lemma emits_bind {A B} (m : M W A) (f : A -> M W B) :
  emits p m -> (forall a, emits p (f a)) -> emits p (bind m f).
Proof.
  intros Hm Hf w r t w' H.
  destruct (bind_inv _ _ _ _ _ _ H) as [(e & _ & Hrun) | (a & t1 & w1 & t2 & Hrun & Hk & ->)].
  - exact (Hm _ _ _ _ Hrun).
  - rewrite forallb_app, (Hm _ _ _ _ Hrun), (Hf a _ _ _ _ Hk). reflexivity.
Qed.

Lemma emits_try_except {A} (body : M W A) (handler : exn -> option (M W A)) :
  emits p body ->
  (forall e h, handler e = Some h -> emits p h) ->
  emits p (try_except body handler).
Proof.
  intros Hbody Hh w r t w'. unfold try_except.
  destruct (body w) as [[[a | e] t1] w1] eqn:Hrun.
  - intros H. injection H as <- <- <-. exact (Hbody _ _ _ _ Hrun).
  - destruct (handler e) as [h | ] eqn:Hhandler.
    + destruct (h w1) as [[r2 t2] w2] eqn:Hhrun.
      intros H. injection H as <- <- <-.
      rewrite forallb_app, (Hbody _ _ _ _ Hrun), (Hh _ _ Hhandler _ _ _ _ Hhrun).
      reflexivity.
    + intros H. injection H as <- <- <-. exact (Hbody _ _ _ _ Hrun).
Qed.

Lemma emits_make_request u m d :
  (forall res, p (EvHTTP (request_of u m d) res) = true) ->
  emits p (make_request E u m d).
Proof.
  intros Hp w r t w'. rewrite make_request_reply.
  destruct (urlopen E _ w) as [res w1]. intros H. injection H as <- <- <-.
  simpl. now rewrite Hp.
Qed.

Lemma emits_weaken {A} (q : event -> bool) (m : M W A) :
  (forall ev, p ev = true -> q ev = true) -> emits p m -> emits q m.
Proof.
  intros Hpq Hm w r t w' H. specialize (Hm _ _ _ _ H).
  rewrite forallb_forall in *. auto.
Qed.

Lemma emits_sleep seconds :
  (forall res, p (EvSleep seconds res) = true) -> emits p (sleep E seconds).
Proof.
  intros Hp w r t w'. unfold sleep.
  destruct (time_sleep E seconds w) as [res w1]. intros H.
  injection H as <- <- <-. simpl. now rewrite Hp.
Qed.

End Emits.

(** Goes through a computation, construct by construct. *)
Ltac emits_step :=
  lazymatch goal with
  | |- emits _ (bind _ _) => apply emits_bind; [ | intros ? ]
  | |- emits _ (ret _) => apply emits_ret
  | |- emits _ (raise _) => apply emits_raise
  | |- emits _ (lift _) => apply emits_lift
  | |- emits _ (print _) => apply emits_print; reflexivity
  | |- emits _ (make_request _ _ _ _) =>
      apply emits_make_request; intros ?; reflexivity
  | |- emits _ (if ?b then _ else _) => destruct b
  | |- emits _ (match ?x with _ => _ end) => destruct x
  end.

Section Chatter.

Context {W : Type}.
Variable E : Env W.

Lemma create_zone_chatter z : emits chatter (create_zone E z).
Proof.
  unfold create_zone. repeat emits_step.
  apply emits_try_except; [repeat emits_step | ].
  - unfold loads. repeat emits_step.
  - intros e h. destruct (is_Exception e); [ | discriminate].
    intros Hh. injection Hh as <-. emits_step.
Qed.

Lemma create_zones_chatter zones : forall c, emits chatter (create_zones E zones c).
Proof.
  induction zones as [ | z zones IH]; intros c; cbn [create_zones].
  - emits_step.
  - emits_step; [apply create_zone_chatter | ]. emits_step; [emits_step | ].
    apply IH.
Qed.

Lemma print_zones_chatter zones_list : emits chatter (@print_zones W zones_list).
Proof.
  induction zones_list as [ | z zones_list IH]; cbn [print_zones].
  - emits_step.
  - do 3 (emits_step; [emits_step | ]). exact IH.
Qed.

Lemma summary_chatter : emits chatter (summary E).
Proof.
  unfold summary. emits_step; [emits_step | ].
  emits_step; [emits_step | ]. emits_step.
  emits_step.
  - emits_step; [ | repeat emits_step].
    emits_step; [unfold loads; repeat emits_step | ].
    emits_step; [emits_step | ]. apply print_zones_chatter.
  - emits_step; [ | repeat emits_step]. emits_step.
Qed.

End Chatter.

(* ================================================================== *)
(** ** What a computation can raise *)
(* ================================================================== *)

(** [make_request] lets through an interrupt or an error of its
    [HTTPError] clause, never a [SystemExit]. *)
Lemma reply_raise {res e} : reply res = Raise e -> is_SystemExit e = false.
Proof.
  destruct res as [[st fp] | code fp | f]; simpl.
  - destruct fp as [bs | [ | cls msg]]; simpl; try discriminate.
    + unfold decode_utf8. destruct (Utf8.decode bs); discriminate.
    + intros H. now injection H as <-.
  - destruct fp as [bs | f]; simpl.
    + unfold decode_utf8. destruct (Utf8.decode bs); [discriminate | ].
      intros H. now injection H as <-.
    + intros H. injection H as <-. now destruct f.
  - destruct f; [ | discriminate]. intros H. now injection H as <-.
Qed.

Section NoExit.

Context {W : Type}.
Variable E : Env W.

Lemma no_exit_ret {A} (a : A) : no_exit (@ret W A a).
Proof. intros w e t w' H. discriminate H. Qed.

Lemma no_exit_print (m : message) : no_exit (@print W m).
Proof. intros w e t w' H. discriminate H. Qed.

Lemma no_exit_lift {A} (x : Res A) :
  (forall e, x = Raise e -> is_SystemExit e = false) -> no_exit (@lift W A x).
Proof. intros Hx w e t w' H. injection H as -> _ _. now apply Hx. Qed.

Lemma no_exit_raise {A} (e : exn) :
  is_SystemExit e = false -> no_exit (@raise W A e).
Proof. intros He w e' t w' H. now injection H as <- _ _. Qed.

Lemma no_exit_bind {A B} (m : M W A) (f : A -> M W B) :
  no_exit m -> (forall a, no_exit (f a)) -> no_exit (bind m f).
Proof.
  intros Hm Hf w e t w' H.
  destruct (bind_inv _ _ _ _ _ _ H)
    as [(e' & Heq & Hrun) | (a & t1 & w1 & t2 & Hrun & Hk & ->)].
  - injection Heq as <-. exact (Hm _ _ _ _ Hrun).
  - exact (Hf a _ _ _ _ Hk).
Qed.

Lemma no_exit_try_except {A} (body : M W A) (handler : exn -> option (M W A)) :
  no_exit body ->
  (forall e h, handler e = Some h -> no_exit h) ->
  no_exit (try_except body handler).
Proof.
  intros Hbody Hh w e t w'. unfold try_except.
  destruct (body w) as [[[a | e0] t1] w1] eqn:Hrun; [discriminate | ].
  destruct (handler e0) as [h | ] eqn:Hhandler.
  - destruct (h w1) as [[r2 t2] w2] eqn:Hhrun.
    intros H. injection H as -> _ _. exact (Hh _ _ Hhandler _ _ _ _ Hhrun).
  - intros H. injection H as <- _ _. exact (Hbody _ _ _ _ Hrun).
Qed.

Lemma no_exit_make_request u m d : no_exit (make_request E u m d).
Proof.
  intros w e t w'. rewrite make_request_reply.
  destruct (urlopen E _ w) as [res w1]. intros H. injection H as Hreply _ _.
  exact (reply_raise Hreply).
Qed.

Lemma no_exit_loads body : no_exit (loads E body).
Proof.
  intros w e t w'. unfold loads.
  destruct body as [s | ]; [destruct (json_loads E s) | ];
    intros H; try discriminate H; now injection H as <- _ _.
Qed.

End NoExit.

(** The pure operations raise [TypeError]s and the like. *)
Ltac pure_raise :=
  let e := fresh "e" in
  let H := fresh "H" in
  intros e H;
  repeat match type of H with
         | context [match ?x with _ => _ end] => destruct x
         end;
  first [discriminate H | injection H as <-; reflexivity].

Ltac no_exit_step :=
  lazymatch goal with
  | |- no_exit (bind _ _) => apply no_exit_bind; [ | intros ? ]
  | |- no_exit (ret _) => apply no_exit_ret
  | |- no_exit (print _) => apply no_exit_print
  | |- no_exit (loads _ _) => apply no_exit_loads
  | |- no_exit (lift (getitem _ _)) =>
      apply no_exit_lift; unfold getitem; pure_raise
  | |- no_exit (lift (py_len _)) =>
      apply no_exit_lift; unfold py_len; pure_raise
  | |- no_exit (lift (py_iter _)) =>
      apply no_exit_lift; unfold py_iter; pure_raise
  | |- no_exit (lift (method_get _ _ _)) =>
      apply no_exit_lift; unfold method_get; pure_raise
  | |- no_exit (lift (method_items _)) =>
      apply no_exit_lift; unfold method_items; pure_raise
  | |- no_exit (lift (contains _ _)) =>
      apply no_exit_lift; unfold contains; pure_raise
  | |- no_exit (make_request _ _ _ _) => apply no_exit_make_request
  | |- no_exit (if ?b then _ else _) => destruct b
  | |- no_exit (match ?x with _ => _ end) => destruct x
  end.

Section NoExitScript.

Context {W : Type}.
Variable E : Env W.

Lemma create_zone_no_exit z : no_exit (create_zone E z).
Proof.
  unfold create_zone. repeat no_exit_step.
  apply no_exit_try_except; [repeat no_exit_step | ].
  intros e h. destruct (is_Exception e); [ | discriminate].
  intros Hh. injection Hh as <-. no_exit_step.
Qed.

Lemma create_zones_no_exit zones : forall c, no_exit (create_zones E zones c).
Proof.
  induction zones as [ | z zones IH]; intros c; cbn [create_zones].
  - no_exit_step.
  - no_exit_step; [apply create_zone_no_exit | ].
    no_exit_step; [no_exit_step | ]. apply IH.
Qed.

Lemma print_zones_no_exit zones_list : no_exit (@print_zones W zones_list).
Proof.
  induction zones_list as [ | z zones_list IH]; cbn [print_zones].
  - no_exit_step.
  - do 3 (no_exit_step; [no_exit_step | ]). exact IH.
Qed.

Lemma summary_no_exit : no_exit (summary E).
Proof.
  unfold summary. no_exit_step; [no_exit_step | ].
  no_exit_step; [no_exit_step | ]. no_exit_step.
  no_exit_step; [ | repeat no_exit_step].
  no_exit_step; [ | no_exit_step].
  no_exit_step; [no_exit_step | ].
  no_exit_step; [no_exit_step | ]. apply print_zones_no_exit.
Qed.

Lemma provision_no_exit doc : no_exit (provision E doc).
Proof.
  unfold provision.
  no_exit_step; [no_exit_step | ].
  no_exit_step; [no_exit_step | ].
  no_exit_step; [no_exit_step | ].
  no_exit_step; [no_exit_step | ].
  no_exit_step; [apply create_zones_no_exit | ].
  no_exit_step; [no_exit_step | ].
  no_exit_step; [no_exit_step | ].
  no_exit_step; [no_exit_step | ]. apply summary_no_exit.
Qed.

End NoExitScript.

(* ================================================================== *)
(** ** [main], step by step *)
(* ================================================================== *)

Section Main.

Context {W : Type}.
Variable E : Env W.

Lemma poll_quiet n : emits polling_event (poll E n).
Proof.
  induction n as [ | n IH]; cbn [poll].
  - repeat emits_step.
  - emits_step; [emits_step | ]. emits_step. emits_step.
    + repeat emits_step.
    + emits_step; [emits_step | ].
      emits_step; [ | exact IH].
      apply emits_sleep. reflexivity.
Qed.

Lemma wait_for_api_quiet n : emits polling_event (wait_for_api E n).
Proof. unfold wait_for_api. emits_step; [emits_step | apply poll_quiet]. Qed.

Lemma wait_for_api_raise {n w e t w'} :
  wait_for_api E n w = (Raise e, t, w') -> is_SystemExit e = false.
Proof.
  intros H.
  destruct (wait_for_api_shape E H) as (fails & tail & _ & _ & Hend).
  destruct Hend as [(Heq & _) | [(Heq & _) | (e' & Heq & _ & res & Hint)]];
    try discriminate Heq.
  injection Heq as <-.
  destruct Hint as [(Hreply & _) | (_ & f & -> & _)].
  - exact (reply_raise Hreply).
  - now destruct f.
Qed.

(** How [main] runs: it stops at the missing fixture, or in the wait, or
    at the fixture it cannot read, or goes on to provision. *)
Lemma main_inv {w r t w'} :
  main E w = (r, t, w') ->
  (fst (path_exists E w) = false
   /\ r = Raise (SystemExit 1)
   /\ t = [EvPrint MsgLoading; EvExists false; EvPrint MsgFileNotFound])
  \/ exists w0 rw tw w1,
       path_exists E w = (true, w0)
       /\ wait_for_api E default_max_attempts w0 = (rw, tw, w1)
       /\ ((exists e, rw = Raise e /\ r = Raise e /\ t = preamble ++ tw)
           \/ (rw = Ok false /\ r = Raise (SystemExit 1) /\ t = preamble ++ tw)
           \/ (rw = Ok true
               /\ exists res w2,
                    open_json_load E w1 = (res, w2)
                    /\ ((exists f, res = LoadFailed f
                                   /\ r = Raise (exn_of_fault f)
                                   /\ t = preamble ++ tw ++ [EvLoad res])
                        \/ (exists doc tp,
                              res = Loaded doc
                              /\ provision E doc w2 = (r, tp, w')
                              /\ t = preamble ++ tw ++ EvLoad res :: tp)))).
Proof.
  unfold main. rewrite bind_print. unfold bind at 1, exists_ at 1.
  destruct (path_exists E w) as [found w0]. destruct found; cbn [negb fst].
  - (* the fixture is there *)
    intros H. right.
    destruct (wait_for_api E default_max_attempts w0) as [[rw tw] w1] eqn:Hwait.
    exists w0, rw, tw, w1. split; [reflexivity | split; [exact Hwait | ]].
    destruct rw as [[ | ] | e];
      [erewrite bind_Ok in H by exact Hwait ..
      | erewrite bind_Raise in H by exact Hwait ];
      cbn [negb] in H.
    + right. right. split; [reflexivity | ].
      unfold bind at 1, load at 1 in H.
      destruct (open_json_load E w1) as [res w2].
      exists res, w2. split; [reflexivity | ].
      destruct res as [doc | f].
      * right. destruct (provision E doc w2) as [[rp tp] w3] eqn:Hprov.
        injection H as <- <- <-. exists doc, tp. repeat split; try (simpl; now rewrite ?app_nil_r).
      * left. exists f. injection H as <- <- <-. repeat split; try (simpl; now rewrite ?app_nil_r).
    + right. left. injection H as <- <- <-. repeat split; try (simpl; now rewrite ?app_nil_r).
    + left. exists e. injection H as <- <- <-. repeat split; try (simpl; now rewrite ?app_nil_r).
  - intros H. left. injection H as <- <- <-. repeat split.
Qed.

(** The top level: the exit status and the log, from those of [main]. *)
Lemma run_inv {w code t w'} :
  run E w = (code, t, w') ->
  exists r tm,
    main E w = (r, tm, w')
    /\ t = tm ++ last_words r
    /\ code = match r with
              | Ok _ => 0
              | Raise (SystemExit c) => c
              | Raise _ => 1
              end.
Proof.
  unfold run, script, try_except.
  destruct (main E w) as [[[[] | e] tm] w1].
  - intros H. injection H as <- <- <-. exists (Ok tt), tm.
    repeat split. simpl. now rewrite app_nil_r.
  - destruct e as [ | c | c fp | cls msg]; intros H; injection H as <- <- <-;
      eexists _, tm; repeat split; simpl; now rewrite ?app_nil_r.
Qed.

End Main.

(* ================================================================== *)
(** ** How a run ends *)
(* ================================================================== *)

Section Run.

Context {W : Type}.
Variable E : Env W.

(** [main] returns only after a successful wait, and leaves through
    [sys.exit] only at its two checks, with code 1. *)
Lemma main_outcome {w r t w'} :
  main E w = (r, t, w') ->
  match r with
  | Ok _ => fst (path_exists E w) = true /\ ~ never_ready E w
  | Raise (SystemExit c) => c = 1 /\ (fixture_absent E w \/ never_ready E w)
  | Raise _ => True
  end.
Proof.
  intros H.
  destruct (main_inv E H)
    as [(Habs & -> & _)
       | (w0 & rw & tw & w1 & Hex & Hwait
          & [(e & -> & -> & _)
            | [(-> & -> & _)
              | (-> & res & w2 & Hload
                 & [(f & _ & -> & _) | (doc & tp & _ & Hprov & _)])]])].
  - split; [reflexivity | now left].
  - pose proof (wait_for_api_raise E Hwait) as He. now destruct e.
  - split; [reflexivity | ]. right. now exists w0, tw, w1.
  - now destruct f.
  - destruct r as [u | e].
    + split; [now rewrite Hex | ].
      intros (w0' & t' & w1' & Hex' & Hwait').
      rewrite Hex in Hex'. injection Hex' as <-.
      rewrite Hwait in Hwait'. discriminate Hwait'.
    + pose proof (provision_no_exit E doc _ _ _ _ Hprov) as He. now destruct e.
Qed.

(** C6: the exit status of the process is 0 exactly when [main] runs to
    its end (whatever the tally of zones), and 1 exactly when the fixture
    file is absent, or the API is not ready within the attempts allowed,
    or [main] is left by a [KeyboardInterrupt] or an exception.  For the
    interrupt the status 1 is the work of the top-level [try]: uncaught,
    it would end the interpreter with 130 (see [exit_status]). *)
Theorem exit_status_cases (w : W) :
  let code := fst (fst (run E w)) in
  (completes E w <-> code = 0)
  /\ (fixture_absent E w \/ never_ready E w \/ unhandled E w <-> code = 1).
Proof.
  destruct (run E w) as [[code t] w'] eqn:Hrun. cbn [fst].
  destruct (run_inv E Hrun) as (r & tm & Hmain & _ & ->).
  pose proof (main_outcome Hmain) as Hout.
  destruct r as [[] | e].
  - (* [main] returned *)
    destruct Hout as (Hfound & Hready). split.
    + split; [reflexivity | ]. intros _. now exists tm, w'.
    + split; [ | discriminate].
      intros [Habs | [Hnever | (e & t' & w'' & Hmain' & _)]].
      * unfold fixture_absent in Habs. congruence.
      * contradiction.
      * rewrite Hmain in Hmain'. discriminate Hmain'.
  - (* [main] raised *)
    assert (Hone : match e with SystemExit c => c | _ => 1 end = 1).
    { destruct e; try reflexivity. now destruct Hout. }
    rewrite Hone. split.
    + split; [ | discriminate].
      intros (t' & w'' & Hmain'). rewrite Hmain in Hmain'. discriminate Hmain'.
    + split; [reflexivity | ]. intros _.
      destruct e as [ | c | c fp | cls msg].
      * right. right. exists KeyboardInterrupt, tm, w'. auto.
      * destruct Hout as (_ & [Habs | Hnever]); auto.
      * right. right. exists (HTTPError c fp), tm, w'. auto.
      * right. right. exists (Exception cls msg), tm, w'. auto.
Qed.

Lemma In_firstn_app {A} (l1 : list A) (x : A) (l2 : list A) (n : nat) :
  (List.length l1 < n)%nat -> In x (firstn n (l1 ++ x :: l2)).
Proof.
  intros Hlt. rewrite firstn_app. apply in_or_app. right.
  destruct (n - List.length l1)%nat as [ | k] eqn:Hk; [lia | ].
  simpl. now left.
Qed.

Lemma polling_events_quiet t :
  forallb polling_event t = true ->
  existsb is_load t = false /\ existsb is_write t = false.
Proof.
  induction t as [ | ev t IH]; simpl; [auto | ].
  rewrite andb_true_iff. intros (Hev & Ht). destruct (IH Ht) as (-> & ->).
  destruct ev as [m | b | res | req res | secs res]; try discriminate Hev; auto.
  simpl in *. now destruct (method req).
Qed.

Lemma last_words_quiet r :
  existsb is_load (last_words r) = false
  /\ existsb is_write (last_words r) = false.
Proof. destruct r as [u | [ | c | c fp | cls msg]]; auto. Qed.

(** C5: when none of the first [max_attempts] (30) [GET] requests of a run
    returns status 200, the run ends with exit status 1, the fixture is
    never loaded, and no [POST] or [PATCH] is ever sent. *)
Theorem api_never_ready_aborts w code t w' :
  run E w = (code, t, w') ->
  Forall (fun res => returned_status res <> Some 200)
         (firstn (Z.to_nat default_max_attempts) (get_results t)) ->
  code = 1 /\ existsb is_load t = false /\ existsb is_write t = false.
Proof.
  intros Hrun Hnone.
  destruct (run_inv E Hrun) as (r & tm & Hmain & -> & ->).
  pose proof (last_words_quiet r) as (Hl & Hw).
  rewrite !existsb_app, Hl, Hw, !orb_false_r.
  destruct (main_inv E Hmain)
    as [(Habs & -> & ->)
       | (w0 & rw & tw & w1 & Hex & Hwait
          & [(e & -> & -> & ->)
            | [(-> & -> & ->)
              | (-> & res & w2 & Hload & Hrest)]])].
  - repeat split.
  - pose proof (wait_for_api_raise E Hwait) as He.
    destruct (polling_events_quiet _ (wait_for_api_quiet E _ _ _ _ _ Hwait))
      as (Hl' & Hw').
    rewrite !existsb_app, Hl', Hw'. now destruct e.
  - destruct (polling_events_quiet _ (wait_for_api_quiet E _ _ _ _ _ Hwait))
      as (Hl' & Hw').
    rewrite !existsb_app, Hl', Hw'. repeat split.
  - (* the wait succeeded: one of the first probes returned 200 *)
    exfalso.
    destruct (wait_for_api_shape E Hwait) as (fails & tail & -> & _ & Hend).
    destruct Hend as [(_ & Hlt & res200 & H200 & ->)
                     | [(Heq & _) | (e & Heq & _)]];
      try discriminate Heq.
    assert (Hin : exists more,
               get_results (tm ++ last_words r) = fails ++ res200 :: more).
    { destruct Hrest as [(f & _ & _ & ->) | (doc & tp & _ & _ & ->)];
        rewrite !get_results_app; cbn [preamble app];
        change (get_results (EvPrint MsgLoading :: EvExists true :: ?x))
          with (get_results x);
        change (get_results (EvPrint MsgWaiting :: ?x)) with (get_results x);
        rewrite !get_results_app, get_results_failed_attempts;
        cbn [get_results exchanges filter map fst snd probe request_of
             truthy method app];
        rewrite <- !app_assoc; eexists; reflexivity. }
    destruct Hin as (more & Hin).
    rewrite Hin in Hnone. rewrite Forall_forall in Hnone.
    exact (Hnone res200 (In_firstn_app _ _ _ _ Hlt) H200).
Qed.

End Run.

(* ================================================================== *)
(** ** Provisioning the zones of a fixture *)
(* ================================================================== *)

Section Provision.

Context {W : Type}.
Variable E : Env W.

(** [provision] on a fixture whose [zones] is a list: the loop, then the
    tally and the summary. *)
Lemma provision_run doc_items zs w :
  dict_get_default doc_items (lit "zones") (JArr []) = JArr zs ->
  provision E (JObj doc_items) w =
  (let '(rz, tz, w1) := create_zones E zs 0 w in
   match rz with
   | Raise e => (Raise e, EvPrint (MsgFound (List.length zs)) :: tz, w1)
   | Ok c =>
       let '(rs, ts, w2) := summary E w1 in
       (rs,
        EvPrint (MsgFound (List.length zs))
        :: tz ++ EvPrint MsgComplete
                 :: EvPrint (MsgProcessed c (List.length zs)) :: ts,
        w2)
   end).
Proof.
  intros Hzs. unfold provision, method_get. rewrite Hzs.
  repeat (run; cbn [py_len py_iter]). unfold bind at 1.
  destruct (create_zones E zs 0 w) as [[[c | e] tz] w1]; [ | reflexivity].
  repeat (run; cbn [py_len py_iter]).
  destruct (summary E w1) as [[rs ts] w2]. reflexivity.
Qed.

Lemma provision_quiet doc : emits provision_event (provision E doc).
Proof.
  assert (Hweak : forall ev, chatter ev = true -> provision_event ev = true).
  { intros [[] | | | | ]; simpl; congruence. }
  unfold provision.
  do 4 (emits_step; [emits_step | ]).
  emits_step;
    [apply (emits_weaken chatter); [exact Hweak | apply create_zones_chatter] | ].
  do 3 (emits_step; [emits_step | ]).
  apply (emits_weaken chatter); [exact Hweak | apply summary_chatter].
Qed.

(** A run that has loaded a fixture has waited with success before, and
    has gone on to provision it. *)
Lemma loaded_fixture {w r t w' doc} :
  main E w = (r, t, w') ->
  In (EvLoad (Loaded doc)) t ->
  exists w0 tw w1 w2 tp,
    wait_for_api E default_max_attempts w0 = (Ok true, tw, w1)
    /\ provision E doc w2 = (r, tp, w')
    /\ t = preamble ++ tw ++ EvLoad (Loaded doc) :: tp.
Proof.
  intros Hmain Hin.
  assert (Hpoll : forall tw, forallb polling_event tw = true ->
                             ~ In (EvLoad (Loaded doc)) tw).
  { intros tw Hq Hin'. rewrite forallb_forall in Hq.
    specialize (Hq _ Hin'). discriminate Hq. }
  destruct (main_inv E Hmain)
    as [(Habs & -> & ->)
       | (w0 & rw & tw & w1 & Hex & Hwait
          & [(e & -> & -> & ->)
            | [(-> & -> & ->)
              | (-> & res & w2 & Hload
                 & [(f & -> & -> & ->) | (doc' & tp & -> & Hprov & ->)])]])].
  - simpl in Hin. intuition discriminate.
  - apply in_app_or in Hin. destruct Hin as [Hin | Hin].
    + simpl in Hin. intuition discriminate.
    + now apply (Hpoll tw (wait_for_api_quiet E _ _ _ _ _ Hwait)) in Hin.
  - apply in_app_or in Hin. destruct Hin as [Hin | Hin].
    + simpl in Hin. intuition discriminate.
    + now apply (Hpoll tw (wait_for_api_quiet E _ _ _ _ _ Hwait)) in Hin.
  - apply in_app_or in Hin. destruct Hin as [Hin | Hin].
    + simpl in Hin. intuition discriminate.
    + apply in_app_or in Hin. destruct Hin as [Hin | Hin].
      * now apply (Hpoll tw (wait_for_api_quiet E _ _ _ _ _ Hwait)) in Hin.
      * simpl in Hin. intuition discriminate.
  - assert (Hdoc : doc' = doc).
    { apply in_app_or in Hin. destruct Hin as [Hin | Hin].
      - simpl in Hin. intuition discriminate.
      - apply in_app_or in Hin. destruct Hin as [Hin | [Hin | Hin]].
        + now apply (Hpoll tw (wait_for_api_quiet E _ _ _ _ _ Hwait)) in Hin.
        + now injection Hin.
        + pose proof (provision_quiet doc' _ _ _ _ Hprov) as Hq.
          rewrite forallb_forall in Hq. specialize (Hq _ Hin). discriminate Hq. }
    subst doc'. exists w0, tw, w1, w2, tp. auto.
Qed.

(** A well-formed zone whose requests all succeed is created. *)
Lemma create_zone_created z w r t w' :
  is_zone_descriptor z = true ->
  create_zone E z w = (r, t, w') ->
  (forall req res, In (EvHTTP req res) t -> method req = POST ->
                   returned_status res = Some 201) ->
  (forall req res, In (EvHTTP req res) t -> method req = PATCH ->
                   returned_status res = Some 200
                   \/ returned_status res = Some 204) ->
  r = Ok true.
Proof.
  intros Hwf H Hposts Hpatches.
  destruct z as [ | | | | | | items]; try discriminate Hwf.
  cbn [is_zone_descriptor] in Hwf. unfold dict_contains in Hwf.
  destruct (dict_get items (lit "name")) as [n | ] eqn:Hn; [ | discriminate].
  destruct (dict_get items (lit "kind")) as [k | ] eqn:Hk; [ | discriminate].
  cbn [andb] in Hwf.
  rewrite (create_zone_run E items _ _ w Hn Hk) in H.
  cbv zeta in H. destruct (urlopen E _ w) as [res w1].
  assert (Hst : forall tl, t = EvPrint (MsgCreating n k)
                               :: EvHTTP (create_request items n k) res :: tl ->
                           returned_status res = Some 201).
  { intros tl ->. apply (Hposts (create_request items n k)); simpl; auto. }
  destruct (reply res) as [[st body] | e] eqn:Hreply.
  - destruct (status_is st 201) eqn:H201.
    + unfold records_to_add in H.
      destruct (equals_str k "Slave"); [now injection H as <- _ _ | ].
      destruct (dict_get items (lit "rrsets")) as [[ | | | | | xs | ] | ];
        try discriminate Hwf; [ | now injection H as <- _ _].
      destruct xs as [ | x xs]; cbn [truthy] in H; [now injection H as <- _ _ | ].
      cbn [py_len] in H. destruct (urlopen E _ w1) as [pres w2].
      specialize (Hpatches (patch_request n (JArr (x :: xs))) pres).
      unfold returned_status in Hpatches.
      destruct (reply pres) as [[ps pbody] | e] eqn:Hpreply.
      * destruct (status_is ps 200 || status_is ps 204) eqn:Hps;
          [now injection H as <- _ _ | ].
        injection H as <- <- <-.
        apply orb_false_iff in Hps. destruct Hps as (H200 & H204).
        destruct Hpatches as [-> | ->];
          [simpl; tauto | reflexivity | discriminate H200 | discriminate H204].
      * injection H as <- <- <-.
        destruct Hpatches as [Hp | Hp];
          [simpl; tauto | reflexivity | discriminate Hp | discriminate Hp].
    + assert (Hret : returned_status res = Some 201).
      { destruct (status_is st 409); injection H as _ <- _; eapply Hst; reflexivity. }
      pose proof (returned_status_reply Hreply Hret) as ->. discriminate H201.
    - injection H as _ <- _.
      assert (Hret : returned_status res = Some 201)
        by (eapply Hst; reflexivity).
      unfold returned_status in Hret. rewrite Hreply in Hret. discriminate.
Qed.

Lemma create_zones_all_created zs : forall c w r t w',
  forallb is_zone_descriptor zs = true ->
  create_zones E zs c w = (r, t, w') ->
  (forall req res, In (EvHTTP req res) t -> method req = POST ->
                   returned_status res = Some 201) ->
  (forall req res, In (EvHTTP req res) t -> method req = PATCH ->
                   returned_status res = Some 200
                   \/ returned_status res = Some 204) ->
  r = Ok (c + List.length zs)%nat.
Proof.
  induction zs as [ | z zs IH]; intros c w r t w' Hwf H Hposts Hpatches.
  - injection H as <- _ _. f_equal. simpl. lia.
  - cbn [forallb] in Hwf. apply andb_true_iff in Hwf. destruct Hwf as (Hz & Hzs).
    destruct (create_zone E z w) as [[rz tz] w1] eqn:Hzone.
    assert (Hrz : rz = Ok true).
    { apply (create_zone_created z w rz tz w1 Hz Hzone).
      - intros req res Hin. apply Hposts.
        destruct rz as [b | e].
        + rewrite (create_zones_step E zs c Hzone) in H.
          destruct (create_zones E zs _ w1) as [[r2 t2] w2].
          injection H as _ <- _. apply in_or_app. now left.
        + rewrite (create_zones_raise E zs c Hzone) in H.
          now injection H as _ <- _.
      - intros req res Hin. apply Hpatches.
        destruct rz as [b | e].
        + rewrite (create_zones_step E zs c Hzone) in H.
          destruct (create_zones E zs _ w1) as [[r2 t2] w2].
          injection H as _ <- _. apply in_or_app. now left.
        + rewrite (create_zones_raise E zs c Hzone) in H.
          now injection H as _ <- _. }
    subst rz. rewrite (create_zones_step E zs c Hzone) in H.
    destruct (create_zones E zs (S c) w1) as [[r2 t2] w2] eqn:Hrest.
    injection H as <- <- <-.
    rewrite (IH (S c) w1 r2 t2 w2 Hzs Hrest).
    + f_equal. simpl. lia.
    + intros req res Hin. apply Hposts. apply in_or_app. right. now right.
    + intros req res Hin. apply Hpatches. apply in_or_app. right. now right.
Qed.

End Provision.

Section Fixtures.

Context {W : Type}.
Variable E : Env W.

(** C1: in a run that loads a fixture whose [zones] is a list of [N] zone
    descriptors, if every [POST] returns status 201 and every [PATCH]
    returns 200 or 204, then the line "Successfully processed ..." is
    printed with [N] as the success count (out of [N]), and it is the only
    such line of the run. *)
Theorem all_created_all_counted w r t w' doc_items zs :
  main E w = (r, t, w') ->
  In (EvLoad (Loaded (JObj doc_items))) t ->
  dict_get_default doc_items (lit "zones") (JArr []) = JArr zs ->
  forallb is_zone_descriptor zs = true ->
  (forall req res, In (EvHTTP req res) t -> method req = POST ->
                   returned_status res = Some 201) ->
  (forall req res, In (EvHTTP req res) t -> method req = PATCH ->
                   returned_status res = Some 200
                   \/ returned_status res = Some 204) ->
  In (EvPrint (MsgProcessed (List.length zs) (List.length zs))) t
  /\ forall a b, In (EvPrint (MsgProcessed a b)) t ->
                 a = List.length zs /\ b = List.length zs.
Proof.
  intros Hmain Hin Hzs Hwf Hposts Hpatches.
  destruct (loaded_fixture E Hmain Hin)
    as (w0 & tw & w1 & w2 & tp & Hwait & Hprov & ->).
  rewrite (provision_run E doc_items _ w2 Hzs) in Hprov.
  destruct (create_zones E zs 0 w2) as [[rz tz] w3] eqn:Hloop.
  assert (Hsub : forall ev, In ev tz -> In ev tp).
  { intros ev Hev. destruct rz as [c | e].
    - destruct (summary E w3) as [[rs ts] w4]. injection Hprov as _ <- _.
      right. apply in_or_app. now left.
    - injection Hprov as _ <- _. now right. }
  assert (Hrz : rz = Ok (0 + List.length zs)%nat).
  { apply (create_zones_all_created E zs 0 w2 rz tz w3 Hwf Hloop).
    - intros req res Hev. apply Hposts.
      apply in_or_app. right. apply in_or_app. right. right. now apply Hsub.
    - intros req res Hev. apply Hpatches.
      apply in_or_app. right. apply in_or_app. right. right. now apply Hsub. }
  subst rz. cbn [Nat.add] in Hprov.
  destruct (summary E w3) as [[rs ts] w4] eqn:Hsummary.
  injection Hprov as <- <- <-. split.
  - apply in_or_app. right. apply in_or_app. right. right. right.
    apply in_or_app. right. right. now left.
  - intros a b Hev.
    pose proof (wait_for_api_quiet E _ _ _ _ _ Hwait) as Hqw.
    pose proof (create_zones_chatter E _ _ _ _ _ _ Hloop) as Hqz.
    pose proof (summary_chatter E _ _ _ _ Hsummary) as Hqs.
    rewrite forallb_forall in Hqw, Hqz, Hqs.
    apply in_app_or in Hev. destruct Hev as [Hev | Hev].
    { simpl in Hev. intuition discriminate. }
    apply in_app_or in Hev. destruct Hev as [Hev | [Hev | [Hev | Hev]]];
      try discriminate Hev.
    { specialize (Hqw _ Hev). discriminate Hqw. }
    apply in_app_or in Hev. destruct Hev as [Hev | [Hev | [Hev | Hev]]];
      try discriminate Hev.
    + specialize (Hqz _ Hev). discriminate Hqz.
    + injection Hev as <- <-. auto.
    + specialize (Hqs _ Hev). discriminate Hqs.
Qed.

(** A zone on which [create_zone] raises at once ends the loop there: the
    log and the world are those of the zones before it. *)
Lemma create_zones_stop z e post :
  (forall w, create_zone E z w = (Raise e, [], w)) ->
  forall pre c w,
    create_zones E (pre ++ z :: post) c w =
    match create_zones E pre c w with
    | (Ok _, t, w1) => (Raise e, t, w1)
    | (Raise e', t, w1) => (Raise e', t, w1)
    end.
Proof.
  intros Hz pre. induction pre as [ | z0 pre IH]; intros c w.
  - cbn [app]. rewrite (create_zones_raise E post c (Hz w)). reflexivity.
  - cbn [app]. destruct (create_zone E z0 w) as [[[b | e0] t0] w0] eqn:Hz0.
    + rewrite !(create_zones_step E _ c Hz0), IH.
      now destruct (create_zones E pre _ w0) as [[[c' | e'] t1] w1].
    + now rewrite !(create_zones_raise E _ c Hz0).
Qed.

Lemma last_words_prints r ev : In ev (last_words r) -> exists m, ev = EvPrint m.
Proof.
  destruct r as [u | [ | c | c fp | cls msg]]; simpl;
    intros Hin; try contradiction; destruct Hin as [<- | []]; eauto.
Qed.

(** C10: a zone descriptor without [name] or without [kind] is not a
    per-zone failure.  [create_zone] raises [KeyError] on it before it
    prints or sends anything; in the loop of [main] that error ends the
    loop, so that the log and the world are those left by the zones before
    it and no zone after it is attempted; and a run that has loaded a
    fixture with such a zone ends with exit status 1. *)
Theorem malformed_zone_aborts_run items pre post :
  dict_get items (lit "name") = None \/ dict_get items (lit "kind") = None ->
  exists key,
    (key = "name"%string \/ key = "kind"%string)
    /\ (forall w,
          create_zone E (JObj items) w = (Raise (KeyError key), [], w))
    /\ (forall c w,
          create_zones E (pre ++ JObj items :: post) c w =
          match create_zones E pre c w with
          | (Ok _, t, w1) => (Raise (KeyError key), t, w1)
          | (Raise e, t, w1) => (Raise e, t, w1)
          end)
    /\ (forall w code t w' doc_items,
          run E w = (code, t, w') ->
          In (EvLoad (Loaded (JObj doc_items))) t ->
          dict_get_default doc_items (lit "zones") (JArr [])
          = JArr (pre ++ JObj items :: post) ->
          code = 1).
Proof.
  intros Hmiss.
  destruct (create_zone_missing_key E items Hmiss) as (key & Hkey & Hraise).
  exists key. split; [exact Hkey | ]. split; [exact Hraise | ].
  pose proof (create_zones_stop _ _ post Hraise pre) as Hstop.
  split; [exact Hstop | ].
  intros w code t w' doc_items Hrun Hin Hzs.
  destruct (run_inv E Hrun) as (r & tm & Hmain & -> & ->).
  assert (Hin' : In (EvLoad (Loaded (JObj doc_items))) tm).
  { apply in_app_or in Hin. destruct Hin as [Hin | Hin]; [exact Hin | ].
    destruct (last_words_prints _ _ Hin) as (m & Hm). discriminate Hm. }
  destruct (loaded_fixture E Hmain Hin')
    as (w0 & tw & w1 & w2 & tp & Hwait & Hprov & _).
  rewrite (provision_run E doc_items _ w2 Hzs), Hstop in Hprov.
  destruct (create_zones E pre 0 w2) as [[[c | e] t1] w3] eqn:Hpre;
    injection Hprov as <- _ _; [reflexivity | ].
  pose proof (create_zones_no_exit E _ _ _ _ _ _ Hpre) as He.
  now destruct e.
Qed.

End Fixtures.

(* ================================================================== *)
(** ** What [make_request] lets through *)
(* ================================================================== *)

(** [make_request] returns for every answer of [urlopen] but these: an
    interrupt, an [HTTPError] whose body cannot be read, and an
    [HTTPError] whose body is not UTF-8. *)
Lemma reply_raises_iff (res : urlopen_result) :
  (exists e, reply res = Raise e) <->
  match res with
  | Returned r => body_fp r = ReadFailed Interrupt
  | ErrorStatus _ (ReadOk bs) => Utf8.decode bs = None
  | ErrorStatus _ (ReadFailed _) => True
  | Failed f => f = Interrupt
  end.
Proof.
  destruct res as [[st fp] | code fp | f]; simpl.
  - destruct fp as [bs | [ | cls msg]]; simpl.
    + unfold decode_utf8. destruct (Utf8.decode bs);
        (split; [intros (e & He); discriminate He | discriminate]).
    + split; eauto.
    + split; [intros (e & He); discriminate He | discriminate].
  - destruct fp as [bs | f]; simpl.
    + unfold decode_utf8. destruct (Utf8.decode bs).
      * split; [intros (e & He); discriminate He | discriminate].
      * split; eauto.
    + split; eauto.
  - destruct f as [ | cls msg].
    + split; eauto.
    + split; [intros (e & He); discriminate He | discriminate].
Qed.

(** A connection that fails comes back as [(None, message)]: not ready
    for the wait, neither 201 nor 409 for [create_zone]. *)
Lemma connection_error_reply (cls : string) (msg : pystr) :
  reply (Failed (Error cls msg)) = Ok (None, Some msg)
  /\ not_ready (Failed (Error cls msg)).
Proof. split; [reflexivity | ]. exists None, (Some msg). auto. Qed.

(** C9: [make_request] is not total.  On an HTTP error response whose body
    is not valid UTF-8, decoding the body inside the [except HTTPError]
    clause raises [UnicodeDecodeError], and [make_request] raises it to
    its caller.  In the readiness wait this ends the wait at that probe
    instead of counting an attempt; during zone creation it ends the run
    with exit status 1 before the next zone is attempted, instead of
    counting a failed zone. *)
Theorem make_request_propagates_decode_error :
  let boom := Exception "UnicodeDecodeError"
                (lit "'utf-8' codec can't decode bytes") in
  let zones := [JObj Worlds.empty_items; JObj Worlds.slave_items] in
  let E := Worlds.scripted true (Loaded (JObj (Worlds.fixture_items zones))) in
  make_request E Zones GET JNull [Worlds.garbled_error]
  = (Raise boom, [EvHTTP probe Worlds.garbled_error], [])
  /\ wait_for_api E 30 [Worlds.garbled_error]
     = (Raise boom, [EvPrint MsgWaiting; EvHTTP probe Worlds.garbled_error], [])
  /\ fst (fst (run E [Worlds.answer 200 "[]"; Worlds.garbled_error])) = 1
  /\ requests (snd (fst (run E [Worlds.answer 200 "[]"; Worlds.garbled_error])))
     = [probe;
        create_request Worlds.empty_items (JStr (lit "b.test."))
          (JStr (lit "Master"))].
Proof. cbv zeta. repeat split; vm_compute; reflexivity. Qed.

(* ================================================================== *)
(** ** The theorems at work *)
(* ================================================================== *)

(** Finds an event in a log that computes. *)
Ltac in_log := vm_compute; repeat (first [left; reflexivity | right]).

(** Goes through the HTTP exchanges of a log that computes. *)
Ltac each_exchange :=
  let req := fresh "req" in
  let res := fresh "res" in
  let Hin := fresh "Hin" in
  let Hm := fresh "Hm" in
  intros req res Hin Hm; vm_compute in Hin;
  repeat (destruct Hin as [Hin | Hin];
          [ try discriminate Hin;
            try (injection Hin as <- <-;
                 first [ discriminate Hm
                       | vm_compute; reflexivity
                       | left; vm_compute; reflexivity
                       | right; vm_compute; reflexivity
                       | do 2 eexists; vm_compute; repeat split; discriminate ])
          | ]);
  try contradiction Hin.

(** The whole fixture against a server that is up: three zones,
    "Successfully processed 3/3 zones". *)
Lemma all_created_all_counted_witness :
  let zones := [JObj Worlds.native_items; JObj Worlds.empty_items;
                JObj Worlds.slave_items] in
  let E := Worlds.healthy (JObj (Worlds.fixture_items zones)) in
  let t := snd (fst (main E tt)) in
  In (EvPrint (MsgProcessed 3 3)) t
  /\ forall a b, In (EvPrint (MsgProcessed a b)) t -> a = 3%nat /\ b = 3%nat.
Proof.
  cbv zeta.
  apply (@all_created_all_counted unit
           (Worlds.healthy
              (JObj (Worlds.fixture_items
                       [JObj Worlds.native_items; JObj Worlds.empty_items;
                        JObj Worlds.slave_items])))
           tt (Ok tt) _ tt
           (Worlds.fixture_items
              [JObj Worlds.native_items; JObj Worlds.empty_items;
               JObj Worlds.slave_items])
           [JObj Worlds.native_items; JObj Worlds.empty_items;
            JObj Worlds.slave_items]).
  - vm_compute. reflexivity.
  - in_log.
  - reflexivity.
  - reflexivity.
  - each_exchange.
  - each_exchange.
Defined.

(** A Slave zone that carries record sets. *)
Lemma slave_zone_payload_and_no_patch_witness :
  let E := Worlds.healthy JNull in
  let t := snd (fst (create_zone E (JObj Worlds.slave_items) tt)) in
  exists payload,
    requests t = [Request Zones (Some (JObj payload)) POST]
    /\ dict_keys payload = [lit "name"; lit "kind"; lit "masters"; lit "nameservers"]
    /\ dict_contains payload (lit "rrsets") = false
    /\ existsb is_patch t = false.
Proof.
  cbv zeta.
  apply (@slave_zone_payload_and_no_patch unit (Worlds.healthy JNull)
           Worlds.slave_items (JStr (lit "c.test.")) tt (Ok true) _ tt);
    vm_compute; reflexivity.
Defined.

(** A zone that is already there. *)
Lemma conflict_counts_as_success_witness :
  let E := Worlds.scripted true (Loaded JNull) in
  let conflict := Worlds.error_answer 409 (list_byte_of_string "Conflict") in
  let z := JObj Worlds.native_items in
  let req := create_request Worlds.native_items (JStr (lit "a.test."))
               (JStr (lit "Native")) in
  let t := snd (fst (create_zone E z [conflict])) in
  Ok true = Ok true
  /\ requests t = [req]
  /\ existsb is_patch t = false
  /\ forall rest c,
       create_zones E (z :: rest) c [conflict] =
       (let '(r2, t2, w2) := create_zones E rest (S c) [] in
        (r2, t ++ EvPrint MsgBlank :: t2, w2)).
Proof.
  cbv zeta.
  apply (@conflict_counts_as_success _ (Worlds.scripted true (Loaded JNull))
           (JObj Worlds.native_items)
           [Worlds.error_answer 409 (list_byte_of_string "Conflict")]
           (Ok true) _ []
           (create_request Worlds.native_items (JStr (lit "a.test."))
              (JStr (lit "Native")))
           (Worlds.error_answer 409 (list_byte_of_string "Conflict"))).
  - vm_compute. reflexivity.
  - in_log.
  - reflexivity.
  - vm_compute. reflexivity.
Defined.

(** A zone that is created, and whose records the server rejects. *)
Lemma failed_patch_fails_zone_witness :
  let E := Worlds.scripted true (Loaded JNull) in
  let w := [Worlds.answer 201 "{}";
            Worlds.error_answer 422 (list_byte_of_string "Unprocessable")] in
  let n := JStr (lit "a.test.") in
  let k := JStr (lit "Native") in
  let t := snd (fst (create_zone E (JObj Worlds.native_items) w)) in
  Ok false = Ok false
  /\ requests t = [create_request Worlds.native_items n k;
                   patch_request n (JArr [Worlds.a_record])]
  /\ forall rest c,
       create_zones E (JObj Worlds.native_items :: rest) c w =
       (let '(r2, t2, w2) := create_zones E rest c [] in
        (r2, t ++ EvPrint MsgBlank :: t2, w2)).
Proof.
  cbv zeta.
  apply (@failed_patch_fails_zone _ (Worlds.scripted true (Loaded JNull))
           Worlds.native_items (JStr (lit "a.test.")) (JStr (lit "Native"))
           Worlds.a_record []
           [Worlds.answer 201 "{}";
            Worlds.error_answer 422 (list_byte_of_string "Unprocessable")]
           (Ok false) _ []).
  - reflexivity.
  - reflexivity.
  - reflexivity.
  - reflexivity.
  - vm_compute. reflexivity.
  - each_exchange.
  - each_exchange.
Defined.

(** A server that never answers: thirty probes, then exit status 1. *)
Lemma api_never_ready_aborts_witness :
  let E := Worlds.down (JObj (Worlds.fixture_items [JObj Worlds.native_items])) in
  let t := snd (fst (run E tt)) in
  1 = 1 /\ existsb is_load t = false /\ existsb is_write t = false.
Proof.
  cbv zeta.
  apply (@api_never_ready_aborts unit
           (Worlds.down (JObj (Worlds.fixture_items [JObj Worlds.native_items])))
           tt 1 _ tt).
  - vm_compute. reflexivity.
  - apply Forall_forall. intros res Hin. vm_compute in Hin.
    repeat (destruct Hin as [<- | Hin]; [discriminate | ]). contradiction Hin.
Defined.

(** A Master zone with an empty list of record sets. *)
Lemma no_records_no_patch_witness :
  let E := Worlds.healthy JNull in
  let t := snd (fst (create_zone E (JObj Worlds.empty_items) tt)) in
  requests t = [create_request Worlds.empty_items (JStr (lit "b.test."))
                  (JStr (lit "Master"))]
  /\ existsb is_patch t = false.
Proof.
  cbv zeta.
  apply (@no_records_no_patch unit (Worlds.healthy JNull) Worlds.empty_items
           (JStr (lit "b.test.")) (JStr (lit "Master")) tt (Ok true) _ tt).
  - reflexivity.
  - reflexivity.
  - right. reflexivity.
  - right. reflexivity.
  - vm_compute. reflexivity.
Defined.

(** A descriptor without a name, between two good zones. *)
Lemma malformed_zone_aborts_run_witness :
  let E := Worlds.healthy JNull in
  let z := JObj Worlds.nameless_items in
  let pre := [JObj Worlds.native_items] in
  let post := [JObj Worlds.slave_items] in
  exists key,
    (key = "name"%string \/ key = "kind"%string)
    /\ (forall w, create_zone E z w = (Raise (KeyError key), [], w))
    /\ (forall c w,
          create_zones E (pre ++ z :: post) c w =
          match create_zones E pre c w with
          | (Ok _, t, w1) => (Raise (KeyError key), t, w1)
          | (Raise e, t, w1) => (Raise e, t, w1)
          end)
    /\ (forall w code t w' doc_items,
          run E w = (code, t, w') ->
          In (EvLoad (Loaded (JObj doc_items))) t ->
          dict_get_default doc_items (lit "zones") (JArr [])
          = JArr (pre ++ z :: post) ->
          code = 1).
Proof.
  cbv zeta.
  apply (@malformed_zone_aborts_run unit (Worlds.healthy JNull)
           Worlds.nameless_items [JObj Worlds.native_items]
           [JObj Worlds.slave_items]).
  left. reflexivity.
Defined.

(* ================================================================== *)
(** ** More on [make_request] and [wait_for_api] *)
(* ================================================================== *)

(** X1: a call to [make_request] makes exactly one HTTP exchange (no
    retry) and leaves the world as [urlopen] left it.  It raises exactly
    when the call is interrupted, or when the body of an [HTTPError]
    cannot be read or is not UTF-8; what it raises is never a
    [SystemExit]. *)
Theorem make_request_one_exchange {W} (E : Env W) u m d w :
  let '(res, w1) := urlopen E (request_of u m d) w in
  let '(r, t, w') := make_request E u m d w in
  t = [EvHTTP (request_of u m d) res]
  /\ w' = w1
  /\ ((exists e, r = Raise e) <->
      match res with
      | Returned resp => body_fp resp = ReadFailed Interrupt
      | ErrorStatus _ (ReadOk bs) => Utf8.decode bs = None
      | ErrorStatus _ (ReadFailed _) => True
      | Failed f => f = Interrupt
      end)
  /\ (forall e, r = Raise e -> is_SystemExit e = false).
Proof.
  rewrite make_request_reply.
  destruct (urlopen E (request_of u m d) w) as [res w1].
  split; [reflexivity | split; [reflexivity | split]].
  - destruct res as [[st fp] | code fp | f]; simpl.
    + destruct fp as [bs | [ | cls msg]]; simpl.
      * unfold decode_utf8. destruct (Utf8.decode bs);
          (split; [intros (e & He); discriminate He | discriminate]).
      * split; eauto.
      * split; [intros (e & He); discriminate He | discriminate].
    + destruct fp as [bs | f]; simpl.
      * unfold decode_utf8. destruct (Utf8.decode bs).
        -- split; [intros (e & He); discriminate He | discriminate].
        -- split; eauto.
      * split; eauto.
    + destruct f as [ | cls msg].
      * split; eauto.
      * split; [intros (e & He); discriminate He | discriminate].
  - intros e He. exact (reply_raise He).
Qed.

(** X2: a success response whose body is not valid UTF-8 is handed back
    without its status, as [(None, message)]: the decoding error is caught
    by the [except Exception] clause.  A probe answered 200 with such a
    body therefore counts as "not ready". *)
Theorem undecodable_success_loses_status {W} (E : Env W) u m d w st bs w1 :
  urlopen E (request_of u m d) w = (Returned (Response st (ReadOk bs)), w1) ->
  Utf8.decode bs = None ->
  (exists msg,
     make_request E u m d w
     = (Ok (None, Some msg),
        [EvHTTP (request_of u m d) (Returned (Response st (ReadOk bs)))], w1))
  /\ not_ready (Returned (Response st (ReadOk bs))).
Proof.
  intros Hopen Hdec. rewrite make_request_reply, Hopen.
  unfold not_ready. cbn [reply body_fp]. unfold decode_utf8. rewrite Hdec.
  split; eauto.
Qed.

Lemma undecodable_success_loses_status_witness :
  let E := Worlds.scripted true (Loaded JNull) in
  (exists msg,
     make_request E Zones GET JNull [Worlds.garbled_answer 200]
     = (Ok (None, Some msg), [EvHTTP probe (Worlds.garbled_answer 200)], []))
  /\ not_ready (Worlds.garbled_answer 200).
Proof.
  cbv zeta.
  apply (@undecodable_success_loses_status _
           (Worlds.scripted true (Loaded JNull)) Zones GET JNull
           [Worlds.garbled_answer 200] 200 [xff] []);
    reflexivity.
Defined.

(** X3: with a budget of zero or fewer attempts, [wait_for_api] gives up
    at once: it sends no request, does not sleep, and returns [False]. *)
Theorem wait_for_api_without_budget {W} (E : Env W) (max_attempts : Z) w :
  max_attempts <= 0 ->
  wait_for_api E max_attempts w
  = (Ok false, [EvPrint MsgWaiting; EvPrint MsgNotReady], w).
Proof.
  intros Hle. unfold wait_for_api.
  replace (Z.to_nat max_attempts) with O by lia. reflexivity.
Qed.

Lemma wait_for_api_without_budget_witness :
  wait_for_api (Worlds.healthy JNull) (-3) tt
  = (Ok false, [EvPrint MsgWaiting; EvPrint MsgNotReady], tt).
Proof.
  apply (@wait_for_api_without_budget unit (Worlds.healthy JNull) (-3) tt).
  lia.
Defined.

Lemma sleeps_app (t1 t2 : list event) :
  sleeps (t1 ++ t2) = (sleeps t1 + sleeps t2)%nat.
Proof.
  induction t1 as [ | ev t1 IH]; simpl; [reflexivity | ].
  destruct ev; simpl; now rewrite IH.
Qed.

Lemma sleeps_failed_attempts (fails : list urlopen_result) :
  sleeps (flat_map failed_attempt fails) = List.length fails.
Proof.
  induction fails as [ | res fails IH]; simpl; [reflexivity | ].
  now rewrite IH.
Qed.

(** X4: when [wait_for_api] gives up, it has sent exactly [max_attempts]
    probes and slept exactly [max_attempts] times for one second: it
    sleeps after the last unsuccessful probe too, before it reports the
    failure. *)
Theorem wait_for_api_timeout_cost {W} (E : Env W) (max_attempts : Z) w t w' :
  wait_for_api E max_attempts w = (Ok false, t, w') ->
  List.length (requests t) = Z.to_nat max_attempts
  /\ sleeps t = Z.to_nat max_attempts
  /\ exists fails,
       t = EvPrint MsgWaiting
           :: flat_map failed_attempt fails ++ [EvPrint MsgNotReady].
Proof.
  intros H.
  destruct (wait_for_api_shape E H) as (fails & tail & -> & _ & Hend).
  destruct Hend as [(Heq & _) | [(_ & Hlen & ->) | (e & Heq & _)]];
    try discriminate Heq.
  rewrite requests_print, requests_app, requests_failed_attempts.
  rewrite length_app, repeat_length.
  cbn [sleeps]. rewrite sleeps_app, sleeps_failed_attempts.
  simpl. repeat split; try lia. now exists fails.
Qed.

Lemma wait_for_api_timeout_cost_witness :
  let t := snd (fst (wait_for_api (Worlds.down JNull) 3 tt)) in
  List.length (requests t) = Z.to_nat 3
  /\ sleeps t = Z.to_nat 3
  /\ exists fails,
       t = EvPrint MsgWaiting
           :: flat_map failed_attempt fails ++ [EvPrint MsgNotReady].
Proof.
  cbv zeta.
  apply (@wait_for_api_timeout_cost unit (Worlds.down JNull) 3 tt _ tt).
  vm_compute. reflexivity.
Defined.

(* ================================================================== *)
(** ** More on [create_zone] and the loop over the zones *)
(* ================================================================== *)

(** Splits a run of [create_zone], given by [create_zone_run], into its
    cases. *)
Ltac zone_cases H :=
  cbv zeta in H;
  repeat match type of H with
         | context [urlopen ?E ?rq ?w] =>
             let res := fresh "res" in
             let w1 := fresh "w" in
             destruct (urlopen E rq w) as [res w1] eqn:?
         | context [match reply ?x with _ => _ end] =>
             let st := fresh "st" in
             let body := fresh "body" in
             let e := fresh "e" in
             destruct (reply x) as [[st body] | e] eqn:?
         | context [match records_to_add ?a ?b with _ => _ end] =>
             destruct (records_to_add a b) eqn:?
         | context [match py_len ?a with _ => _ end] =>
             destruct (py_len a) eqn:?
         | context [if ?b then _ else _] => destruct b eqn:?
         end;
  injection H as <- <- <-.

Lemma dict_keys_without (items : list (pystr * json)) (key : pystr) :
  dict_keys (dict_without items key)
  = filter (fun k => negb (str_eqb k key)) (dict_keys items).
Proof.
  unfold dict_keys, dict_without.
  induction items as [ | [k v] items IH]; simpl; [reflexivity | ].
  destruct (str_eqb k key); simpl; now rewrite IH.
Qed.

Section ZoneFacts.

Context {W : Type}.
Variable E : Env W.

(** The requests [create_zone] makes for a zone: none, or the creating
    [POST], or that [POST] and one [PATCH]. *)
Lemma create_zone_requests_cases {z w r t w'} :
  create_zone E z w = (r, t, w') ->
  requests t = []
  \/ (exists d, requests t = [Request Zones (Some d) POST])
  \/ (exists d n rrsets,
        requests t = [Request Zones (Some d) POST; patch_request n rrsets]).
Proof.
  intros H.
  destruct (create_zone_cases E z)
    as [(items & n & k & -> & Hn & Hk) | (e & _ & Hraise)].
  - rewrite (create_zone_run E items _ _ w Hn Hk) in H.
    unfold create_request in H. zone_cases H;
      solve [ right; left; eexists; reflexivity
            | right; right; do 3 eexists; reflexivity ].
  - rewrite Hraise in H. injection H as _ <- _. now left.
Qed.

(** X5: whatever the descriptor and whatever the server answers,
    [create_zone] makes at most two requests for a zone: first the [POST]
    to the zones collection, then at most one [PATCH] to the zone; it
    never sends a [GET] or anything after the [PATCH]. *)
Theorem create_zone_requests (z : json) (w : W) :
  let '(_, t, _) := create_zone E z w in
  requests t = []
  \/ (exists d, requests t = [Request Zones (Some d) POST])
  \/ (exists d n rrsets,
        requests t = [Request Zones (Some d) POST; patch_request n rrsets]).
Proof.
  destruct (create_zone E z w) as [[r t] w'] eqn:H.
  exact (create_zone_requests_cases H).
Qed.

(** The tally of a loop that ends, against the tally it started from. *)
Lemma create_zones_tally zs : forall c w c' t w',
  create_zones E zs c w = (Ok c', t, w') ->
  (c <= c' <= c + List.length zs)%nat.
Proof.
  induction zs as [ | z zs IH]; intros c w c' t w' H.
  - injection H as <- _ _. simpl. lia.
  - destruct (create_zone E z w) as [[[b | e] tz] w1] eqn:Hz.
    + rewrite (create_zones_step E zs c Hz) in H.
      destruct (create_zones E zs _ w1) as [[r2 t2] w2] eqn:Hrest.
      injection H as -> _ _. specialize (IH _ _ _ _ _ Hrest).
      destruct b; simpl; lia.
    + rewrite (create_zones_raise E zs c Hz) in H. discriminate H.
Qed.

(** X6: the tally only grows, by at most one per zone: a loop over the
    zones that ends returns a count between the count it started from and
    that count plus the number of zones. *)
Theorem tally_bounds zs c w c' t w' :
  create_zones E zs c w = (Ok c', t, w') ->
  (c <= c' <= c + List.length zs)%nat.
Proof. apply create_zones_tally. Qed.

(** X7: the loop over the zones makes at most two requests per zone, none
    of them a [GET]. *)
Theorem create_zones_request_bound zs : forall c w,
  let '(_, t, _) := create_zones E zs c w in
  (List.length (requests t) <= 2 * List.length zs)%nat
  /\ Forall (fun rq => method rq <> GET) (requests t).
Proof.
  induction zs as [ | z zs IH]; intros c w.
  - simpl. split; [lia | constructor].
  - destruct (create_zone E z w) as [[rz tz] w1] eqn:Hz.
    assert (Hone : (List.length (requests tz) <= 2)%nat
                   /\ Forall (fun rq => method rq <> GET) (requests tz)).
    { destruct (create_zone_requests_cases Hz)
        as [-> | [(d & ->) | (d & n & rr & ->)]];
        (split; [simpl; lia | repeat constructor; discriminate]). }
    destruct Hone as (Hlen & Hget). destruct rz as [b | e].
    + rewrite (create_zones_step E zs c Hz).
      specialize (IH (if b then S c else c) w1).
      destruct (create_zones E zs _ w1) as [[r2 t2] w2].
      destruct IH as (IHlen & IHget).
      change (tz ++ EvPrint MsgBlank :: t2) with (tz ++ [EvPrint MsgBlank] ++ t2).
      rewrite !requests_app, !length_app. cbn [requests exchanges map app length].
      split; [simpl; lia | ]. apply Forall_app. auto.
    + rewrite (create_zones_raise E zs c Hz). split; [simpl; lia | exact Hget].
Qed.

(** X8: for a zone that is not a Slave, the payload of the creating [POST]
    is the descriptor without its [rrsets]: the key [rrsets] is gone, every
    other key keeps its value, and the keys keep their order. *)
Theorem non_slave_payload items n k w r t w' :
  dict_get items (lit "name") = Some n ->
  dict_get items (lit "kind") = Some k ->
  equals_str k "Slave" = false ->
  create_zone E (JObj items) w = (r, t, w') ->
  exists payload rest,
    requests t = Request Zones (Some (JObj payload)) POST :: rest
    /\ dict_get payload (lit "rrsets") = None
    /\ (forall key, str_eqb key (lit "rrsets") = false ->
                    dict_get payload key = dict_get items key)
    /\ dict_keys payload
       = filter (fun key => negb (str_eqb key (lit "rrsets"))) (dict_keys items).
Proof.
  intros Hn Hk Hslave H.
  exists (dict_without items (lit "rrsets")).
  assert (Hreq : exists rest,
            requests t = Request Zones (Some (JObj (dict_without items (lit "rrsets"))))
                           POST :: rest).
  { rewrite (create_zone_run E items _ _ w Hn Hk) in H.
    unfold create_request, creation_payload in H. rewrite Hslave in H.
    zone_cases H; eexists; reflexivity. }
  destruct Hreq as (rest & Hreq). exists rest.
  split; [exact Hreq | ]. split; [apply dict_get_without_same | ].
  split; [intros key Hkey; now apply dict_get_without | ].
  apply dict_keys_without.
Qed.

End ZoneFacts.

Lemma tally_bounds_witness :
  let zs := [JObj Worlds.empty_items; JObj Worlds.slave_items] in
  (0 <= 1 <= 0 + List.length zs)%nat.
Proof.
  cbv zeta.
  apply (@tally_bounds _ (Worlds.scripted true (Loaded JNull))
           [JObj Worlds.empty_items; JObj Worlds.slave_items] 0%nat
           [Worlds.answer 201 "{}"] 1%nat
           (snd (fst (create_zones (Worlds.scripted true (Loaded JNull))
                        [JObj Worlds.empty_items; JObj Worlds.slave_items]
                        0%nat [Worlds.answer 201 "{}"])))
           []).
  vm_compute. reflexivity.
Defined.

Lemma non_slave_payload_witness :
  let t := snd (fst (create_zone (Worlds.healthy JNull)
                       (JObj Worlds.native_items) tt)) in
  exists payload rest,
    requests t = Request Zones (Some (JObj payload)) POST :: rest
    /\ dict_get payload (lit "rrsets") = None
    /\ (forall key, str_eqb key (lit "rrsets") = false ->
                    dict_get payload key = dict_get Worlds.native_items key)
    /\ dict_keys payload
       = filter (fun key => negb (str_eqb key (lit "rrsets")))
           (dict_keys Worlds.native_items).
Proof.
  cbv zeta.
  apply (@non_slave_payload unit (Worlds.healthy JNull) Worlds.native_items
           (JStr (lit "a.test.")) (JStr (lit "Native")) tt (Ok true) _ tt);
    vm_compute; reflexivity.
Defined.

(** From an HTTP event of an explicit log to its request and answer. *)
Ltac pick_exchange H :=
  simpl in H;
  repeat (destruct H as [H | H]; [try discriminate H | ]);
  try contradiction H;
  try (injection H as <- <-).

Section ZoneOutcomes.

Context {W : Type}.
Variable E : Env W.

(** X9: when the creating [POST] comes back with a status that is neither
    201 nor 409 (or with no status: the connection failed), [create_zone]
    returns [False] without raising, whatever the body is; the [POST] is
    its only request; it prints the status line and then the body, parsed
    when [json.loads] accepts it and raw otherwise; and the loop goes on to
    the next zone with the tally unchanged. *)
Theorem rejected_creation_fails_zone z w r t w' req res st body :
  create_zone E z w = (r, t, w') ->
  In (EvHTTP req res) t ->
  method req = POST ->
  reply res = Ok (st, body) ->
  status_is st 201 = false ->
  status_is st 409 = false ->
  r = Ok false
  /\ requests t = [req]
  /\ (exists zone_name zone_kind,
        t = EvPrint (MsgCreating zone_name zone_kind) :: EvHTTP req res
            :: error_report E st body)
  /\ forall rest c,
       create_zones E (z :: rest) c w =
       (let '(r2, t2, w2) := create_zones E rest c w' in
        (r2, t ++ EvPrint MsgBlank :: t2, w2)).
Proof.
  intros H Hin Hpost Hreply H201 H409.
  assert (Hgoal : r = Ok false /\ requests t = [req]
            /\ exists zone_name zone_kind,
                 t = EvPrint (MsgCreating zone_name zone_kind) :: EvHTTP req res
                     :: error_report E st body).
  { destruct (create_zone_cases E z)
      as [(items & n & k & -> & Hn & Hk) | (e & _ & Hraise)].
    2: { rewrite Hraise in H. injection H as <- <- <-. contradiction Hin. }
    rewrite (create_zone_run E items _ _ w Hn Hk) in H.
    zone_cases H; unfold error_report in Hin; pick_exchange Hin;
      try congruence;
      try discriminate Hpost.
    all: match goal with
         | H1 : reply ?x = Ok (?a, ?b) |- _ =>
             rewrite Hreply in H1; injection H1 as <- <-
         end.
    all: repeat split; eauto. }
  destruct Hgoal as (-> & Hreq & Hlog). repeat split; auto.
  intros rest c. now rewrite (create_zones_step E rest c H).
Qed.

(** The record sets to add, from the tests the source makes. *)
Lemma records_to_add_some items k rrsets :
  equals_str k "Slave" = false ->
  dict_get items (lit "rrsets") = Some rrsets ->
  truthy rrsets = true ->
  records_to_add items k = Some rrsets.
Proof. intros Hs Hr Ht. unfold records_to_add. now rewrite Hs, Hr, Ht. Qed.

(** X10: for a zone that is not a Slave and has record sets, when the
    [POST] returns 201 and the [PATCH] returns 200 or 204, [create_zone]
    returns [True]; its requests are the [POST] and then one [PATCH] to
    the URL of the zone, whose body is [{"rrsets": rrsets}] with the record
    sets of the descriptor unchanged; the number of record sets is
    printed; and the loop goes on with the tally increased by one. *)
Theorem patched_zone_counts items n k rrsets count w r t w' :
  dict_get items (lit "name") = Some n ->
  dict_get items (lit "kind") = Some k ->
  equals_str k "Slave" = false ->
  dict_get items (lit "rrsets") = Some rrsets ->
  truthy rrsets = true ->
  py_len rrsets = Ok count ->
  create_zone E (JObj items) w = (r, t, w') ->
  (forall req res, In (EvHTTP req res) t -> method req = POST ->
                   returned_status res = Some 201) ->
  (forall req res, In (EvHTTP req res) t -> method req = PATCH ->
                   returned_status res = Some 200
                   \/ returned_status res = Some 204) ->
  r = Ok true
  /\ requests t
     = [create_request items n k;
        Request (Zone n) (Some (JObj [(lit "rrsets", rrsets)])) PATCH]
  /\ In (EvPrint (MsgAdding count)) t
  /\ forall rest c,
       create_zones E (JObj items :: rest) c w =
       (let '(r2, t2, w2) := create_zones E rest (S c) w' in
        (r2, t ++ EvPrint MsgBlank :: t2, w2)).
Proof.
  intros Hn Hk Hslave Hrr Htruthy Hlen H Hposts Hpatches.
  assert (Hgoal : r = Ok true
            /\ requests t = [create_request items n k; patch_request n rrsets]
            /\ In (EvPrint (MsgAdding count)) t).
  { rewrite (create_zone_run E items _ _ w Hn Hk) in H.
    rewrite (records_to_add_some items k rrsets Hslave Hrr Htruthy), Hlen in H.
    cbv zeta in H.
    destruct (urlopen E _ w) as [res w1].
    specialize (Hposts (create_request items n k) res).
    unfold returned_status in Hposts, Hpatches.
    destruct (reply res) as [[st body] | e] eqn:Hreply.
    - destruct (status_is st 201) eqn:H201.
      + destruct (urlopen E _ w1) as [pres w2].
        specialize (Hpatches (patch_request n rrsets) pres).
        destruct (reply pres) as [[ps pbody] | e] eqn:Hpreply.
        * destruct (status_is ps 200 || status_is ps 204) eqn:Hps;
            injection H as <- <- <-.
          -- repeat split. simpl. tauto.
          -- apply orb_false_iff in Hps. destruct Hps as (H200 & H204).
             destruct (Hpatches ltac:(simpl; tauto) eq_refl) as [-> | ->];
               discriminate.
        * injection H as <- <- <-.
          destruct (Hpatches ltac:(simpl; tauto) eq_refl); discriminate.
      + assert (Hst : st = Some 201).
        { apply Hposts; [ | reflexivity].
          destruct (status_is st 409); injection H as _ <- _; simpl; tauto. }
        subst st. discriminate H201.
    - injection H as _ <- _.
      assert (Hst : None = Some 201) by (apply Hposts; [simpl; tauto | reflexivity]).
      discriminate Hst. }
  destruct Hgoal as (-> & Hreq & Hadd). repeat split; auto.
  intros rest c. now rewrite (create_zones_step E rest c H).
Qed.

(** X11: for a zone that is not a Slave whose [rrsets] is true but has no
    length (a number other than zero, or [true]), once the [POST] has
    returned 201 [create_zone] raises the [TypeError] of [len(rrsets)]: the
    zone has been created, no [PATCH] is sent, and the error ends the loop
    over the zones. *)
Theorem unsized_rrsets_raise_after_creation items n k rrsets e w r t w' :
  dict_get items (lit "name") = Some n ->
  dict_get items (lit "kind") = Some k ->
  equals_str k "Slave" = false ->
  dict_get items (lit "rrsets") = Some rrsets ->
  truthy rrsets = true ->
  py_len rrsets = Raise e ->
  create_zone E (JObj items) w = (r, t, w') ->
  (forall req res, In (EvHTTP req res) t -> method req = POST ->
                   returned_status res = Some 201) ->
  r = Raise e
  /\ requests t = [create_request items n k]
  /\ forall rest c,
       create_zones E (JObj items :: rest) c w = (Raise e, t, w').
Proof.
  intros Hn Hk Hslave Hrr Htruthy Hlen H Hposts.
  assert (Hgoal : r = Raise e /\ requests t = [create_request items n k]).
  { rewrite (create_zone_run E items _ _ w Hn Hk) in H.
    rewrite (records_to_add_some items k rrsets Hslave Hrr Htruthy), Hlen in H.
    cbv zeta in H.
    destruct (urlopen E _ w) as [res w1].
    specialize (Hposts (create_request items n k) res).
    unfold returned_status in Hposts.
    destruct (reply res) as [[st body] | e0] eqn:Hreply.
    - destruct (status_is st 201) eqn:H201.
      + injection H as <- <- <-. now split.
      + assert (Hst : st = Some 201).
        { apply Hposts; [ | reflexivity].
          destruct (status_is st 409); injection H as _ <- _; simpl; tauto. }
        subst st. discriminate H201.
    - injection H as _ <- _.
      assert (Hst : None = Some 201) by (apply Hposts; [simpl; tauto | reflexivity]).
      discriminate Hst. }
  destruct Hgoal as (-> & Hreq). repeat split; auto.
  intros rest c. exact (create_zones_raise E rest c H).
Qed.

(** One zone of a run in which every [POST] returns 409. *)
Lemma create_zone_conflict z w r t w' :
  has_name_and_kind z = true ->
  create_zone E z w = (r, t, w') ->
  (forall req res, In (EvHTTP req res) t -> method req = POST ->
                   returned_status res = Some 409) ->
  r = Ok true /\ existsb is_patch t = false
  /\ List.length (requests t) = 1%nat.
Proof.
  intros Hwf H Hposts.
  destruct z as [ | | | | | | items]; try discriminate Hwf.
  cbn [has_name_and_kind] in Hwf. unfold dict_contains in Hwf.
  destruct (dict_get items (lit "name")) as [n | ] eqn:Hn; [ | discriminate].
  destruct (dict_get items (lit "kind")) as [k | ] eqn:Hk; [ | discriminate].
  rewrite (create_zone_run E items _ _ w Hn Hk) in H. cbv zeta in H.
  destruct (urlopen E _ w) as [res w1].
  assert (Hst : forall tl,
            t = EvPrint (MsgCreating n k)
                :: EvHTTP (create_request items n k) res :: tl ->
            returned_status res = Some 409).
  { intros tl ->. apply (Hposts (create_request items n k)); simpl; auto. }
  unfold returned_status in Hst.
  destruct (reply res) as [[st body] | e] eqn:Hreply.
  - assert (H409 : st = Some 409).
    { destruct (status_is st 201);
        [ destruct (records_to_add items k) as [rr | ];
          [ destruct (py_len rr);
            [ destruct (urlopen E _ w1) as [pres w2];
              destruct (reply pres) as [[ps pb] | e];
              [ destruct (status_is ps 200 || status_is ps 204) | ] | ] | ]
        | destruct (status_is st 409) ];
        injection H as _ <- _; eapply Hst; reflexivity. }
    subst st. cbn [status_is Z.eqb Pos.eqb] in H.
    injection H as <- <- <-. repeat split.
  - injection H as _ <- _.
    assert (Hnone : None = Some 409) by (eapply Hst; reflexivity).
    discriminate Hnone.
Qed.

(** X12: running the loop again over zones that all exist already: when
    every [POST] returns 409 (and every zone has a [name] and a [kind]),
    every zone is counted, exactly one request is made per zone, and no
    [PATCH] is sent at all, so no record set is applied a second time. *)
Theorem rerun_only_conflicts zs : forall c w r t w',
  forallb has_name_and_kind zs = true ->
  create_zones E zs c w = (r, t, w') ->
  (forall req res, In (EvHTTP req res) t -> method req = POST ->
                   returned_status res = Some 409) ->
  r = Ok (c + List.length zs)%nat
  /\ existsb is_patch t = false
  /\ List.length (requests t) = List.length zs.
Proof.
  induction zs as [ | z zs IH]; intros c w r t w' Hwf H Hposts.
  - injection H as <- <- _. repeat split. f_equal. simpl. lia.
  - cbn [forallb] in Hwf. apply andb_true_iff in Hwf. destruct Hwf as (Hz & Hzs).
    destruct (create_zone E z w) as [[rz tz] w1] eqn:Hzone.
    assert (Hsub : forall ev, In ev tz -> In ev t).
    { intros ev Hev. destruct rz as [b | e].
      - rewrite (create_zones_step E zs c Hzone) in H.
        destruct (create_zones E zs _ w1) as [[r2 t2] w2].
        injection H as _ <- _. apply in_or_app. now left.
      - rewrite (create_zones_raise E zs c Hzone) in H.
        now injection H as _ <- _. }
    destruct (create_zone_conflict z w rz tz w1 Hz Hzone) as (-> & Hpz & Hlz).
    { intros req res Hev. apply Hposts. now apply Hsub. }
    rewrite (create_zones_step E zs c Hzone) in H.
    destruct (create_zones E zs (S c) w1) as [[r2 t2] w2] eqn:Hrest.
    injection H as <- <- <-.
    destruct (IH (S c) w1 r2 t2 w2 Hzs Hrest) as (-> & Hp2 & Hl2).
    { intros req res Hev. apply Hposts. apply in_or_app. right. now right. }
    split; [f_equal; simpl; lia | ].
    change (tz ++ EvPrint MsgBlank :: t2) with (tz ++ [EvPrint MsgBlank] ++ t2).
    rewrite !existsb_app, !requests_app, !length_app, Hpz, Hp2, Hlz, Hl2.
    split; reflexivity.
Qed.

End ZoneOutcomes.

(** A zone the server rejects with 422. *)
Lemma rejected_creation_fails_zone_witness :
  let E := Worlds.scripted true (Loaded JNull) in
  let rejected := Worlds.error_answer 422 (list_byte_of_string "Unprocessable") in
  let z := JObj Worlds.native_items in
  let req := create_request Worlds.native_items (JStr (lit "a.test."))
               (JStr (lit "Native")) in
  let t := snd (fst (create_zone E z [rejected])) in
  Ok false = Ok false
  /\ requests t = [req]
  /\ (exists zone_name zone_kind,
        t = EvPrint (MsgCreating zone_name zone_kind) :: EvHTTP req rejected
            :: error_report E (Some 422) (Some (lit "Unprocessable")))
  /\ forall rest c,
       create_zones E (z :: rest) c [rejected] =
       (let '(r2, t2, w2) := create_zones E rest c [] in
        (r2, t ++ EvPrint MsgBlank :: t2, w2)).
Proof.
  cbv zeta.
  apply (@rejected_creation_fails_zone _ (Worlds.scripted true (Loaded JNull))
           (JObj Worlds.native_items)
           [Worlds.error_answer 422 (list_byte_of_string "Unprocessable")]
           (Ok false) _ []
           (create_request Worlds.native_items (JStr (lit "a.test."))
              (JStr (lit "Native")))
           (Worlds.error_answer 422 (list_byte_of_string "Unprocessable"))
           (Some 422) (Some (lit "Unprocessable"))).
  - vm_compute. reflexivity.
  - in_log.
  - reflexivity.
  - vm_compute. reflexivity.
  - reflexivity.
  - reflexivity.
Defined.

(** A Native zone with one record set, against a server that is up. *)
Lemma patched_zone_counts_witness :
  let E := Worlds.healthy JNull in
  let n := JStr (lit "a.test.") in
  let t := snd (fst (create_zone E (JObj Worlds.native_items) tt)) in
  Ok true = Ok true
  /\ requests t
     = [create_request Worlds.native_items n (JStr (lit "Native"));
        Request (Zone n)
          (Some (JObj [(lit "rrsets", JArr [Worlds.a_record])])) PATCH]
  /\ In (EvPrint (MsgAdding 1)) t
  /\ forall rest c,
       create_zones E (JObj Worlds.native_items :: rest) c tt =
       (let '(r2, t2, w2) := create_zones E rest (S c) tt in
        (r2, t ++ EvPrint MsgBlank :: t2, w2)).
Proof.
  cbv zeta.
  apply (@patched_zone_counts unit (Worlds.healthy JNull) Worlds.native_items
           (JStr (lit "a.test.")) (JStr (lit "Native"))
           (JArr [Worlds.a_record]) 1%nat tt (Ok true) _ tt).
  - reflexivity.
  - reflexivity.
  - reflexivity.
  - reflexivity.
  - reflexivity.
  - reflexivity.
  - vm_compute. reflexivity.
  - each_exchange.
  - each_exchange.
Defined.

(** A zone whose [rrsets] is the number 5. *)
Lemma unsized_rrsets_raise_after_creation_witness :
  let E := Worlds.scripted true (Loaded JNull) in
  let w := [Worlds.answer 201 "{}"] in
  let e := TypeError "object has no len()" in
  let t := snd (fst (create_zone E (JObj Worlds.odd_items) w)) in
  Raise e = Raise (A := bool) e
  /\ requests t = [create_request Worlds.odd_items (JStr (lit "d.test."))
                     (JStr (lit "Native"))]
  /\ forall rest c,
       create_zones E (JObj Worlds.odd_items :: rest) c w = (Raise e, t, []).
Proof.
  cbv zeta.
  apply (@unsized_rrsets_raise_after_creation _
           (Worlds.scripted true (Loaded JNull)) Worlds.odd_items
           (JStr (lit "d.test.")) (JStr (lit "Native")) (JInt 5)
           (TypeError "object has no len()") [Worlds.answer 201 "{}"]
           (Raise (TypeError "object has no len()")) _ []).
  - reflexivity.
  - reflexivity.
  - reflexivity.
  - reflexivity.
  - reflexivity.
  - reflexivity.
  - vm_compute. reflexivity.
  - each_exchange.
Defined.

(** Two zones that are both there already. *)
Lemma rerun_only_conflicts_witness :
  let E := Worlds.scripted true (Loaded JNull) in
  let conflict := Worlds.error_answer 409 (list_byte_of_string "Conflict") in
  let zs := [JObj Worlds.native_items; JObj Worlds.slave_items] in
  let t := snd (fst (create_zones E zs 0 [conflict; conflict])) in
  Ok (0 + List.length zs)%nat = Ok (0 + List.length zs)%nat
  /\ existsb is_patch t = false
  /\ List.length (requests t) = List.length zs.
Proof.
  cbv zeta.
  apply (@rerun_only_conflicts _ (Worlds.scripted true (Loaded JNull))
           [JObj Worlds.native_items; JObj Worlds.slave_items] 0%nat
           [Worlds.error_answer 409 (list_byte_of_string "Conflict");
            Worlds.error_answer 409 (list_byte_of_string "Conflict")]
           (Ok 2%nat) _ []).
  - reflexivity.
  - vm_compute. reflexivity.
  - each_exchange.
Defined.

(* ================================================================== *)
(** ** More on [main] *)
(* ================================================================== *)

Section MainFacts.

Context {W : Type}.
Variable E : Env W.

(** X13: a fixture without a [zones] key, or with an empty list of zones,
    is provisioned without any [POST] or [PATCH]: [main] prints "Found 0",
    then "Successfully processed 0/0", and goes on to the summary. *)
Theorem empty_fixture_is_provisioned doc_items w :
  dict_get doc_items (lit "zones") = None
  \/ dict_get doc_items (lit "zones") = Some (JArr []) ->
  provision E (JObj doc_items) w =
  (let '(rs, ts, w2) := summary E w in
   (rs,
    EvPrint (MsgFound 0) :: EvPrint MsgComplete
    :: EvPrint (MsgProcessed 0 0) :: ts,
    w2)).
Proof.
  intros Hzones.
  assert (Hzs : dict_get_default doc_items (lit "zones") (JArr []) = JArr []).
  { unfold dict_get_default. now destruct Hzones as [-> | ->]. }
  rewrite (provision_run E doc_items _ w Hzs). reflexivity.
Qed.

(** X16: when the fixture file is absent, the run is over before any HTTP
    request or sleep: its log is the opening line, the check of the file
    and the error line, and the exit status is 1. *)
Theorem absent_fixture_no_traffic w w0 :
  path_exists E w = (false, w0) ->
  run E w
  = (1, [EvPrint MsgLoading; EvExists false; EvPrint MsgFileNotFound], w0).
Proof.
  intros Habs. unfold run, script, try_except, main.
  rewrite bind_print. unfold bind at 1, exists_ at 1. rewrite Habs.
  reflexivity.
Qed.

(** X17: when the [GET] of the summary returns a status other than 200 (or
    no status), the listing is skipped without an error: the summary
    prints its header and the hints, and returns. *)
Theorem summary_without_listing w res w1 st body :
  urlopen E probe w = (res, w1) ->
  reply res = Ok (st, body) ->
  status_is st 200 = false ->
  summary E w
  = (Ok tt, EvPrint MsgSummary :: EvHTTP probe res :: hints, w1).
Proof.
  intros Hopen Hreply Hst. unfold summary.
  rewrite bind_print, bind_make_request. fold probe.
  rewrite Hopen, Hreply, Hst. reflexivity.
Qed.

(** The loop that prints the listing, on entries that have a [name] and a
    [kind]. *)
Lemma print_zones_run zs (w : W) :
  forallb has_name_and_kind zs = true ->
  print_zones zs w = (Ok tt, map zone_line zs, w).
Proof.
  induction zs as [ | z zs IH]; intros Hwf; [reflexivity | ].
  cbn [forallb] in Hwf. apply andb_true_iff in Hwf. destruct Hwf as (Hz & Hzs).
  destruct z as [ | | | | | | items]; try discriminate Hz.
  cbn [has_name_and_kind] in Hz. unfold dict_contains in Hz.
  cbn [print_zones map zone_line]. unfold getitem, dict_get_default.
  destruct (dict_get items (lit "name")) as [n | ]; [ | discriminate].
  destruct (dict_get items (lit "kind")) as [k | ]; [ | discriminate].
  run. rewrite (IH Hzs). reflexivity.
Qed.

(** X18: when the [GET] of the summary returns 200 with a body that
    [json.loads] parses into a list of objects with a [name] and a [kind],
    the summary prints one line per entry, in the order of the list,
    between its header and the hints, and returns. *)
Theorem summary_lists_zones w res w1 s zs :
  urlopen E probe w = (res, w1) ->
  reply res = Ok (Some 200, Some s) ->
  json_loads E s = Some (JArr zs) ->
  forallb has_name_and_kind zs = true ->
  summary E w
  = (Ok tt,
     EvPrint MsgSummary :: EvHTTP probe res :: map zone_line zs ++ hints,
     w1).
Proof.
  intros Hopen Hreply Hparse Hwf. unfold summary.
  rewrite bind_print, bind_make_request. fold probe.
  rewrite Hopen, Hreply. cbn [status_is Z.eqb Pos.eqb].
  unfold loads. rewrite Hparse.
  run. cbn [py_iter]. run.
  erewrite bind_Ok by exact (print_zones_run zs w1 Hwf).
  reflexivity.
Qed.

(** X19: when the [GET] of the summary returns 200 but the body is empty
    (so [None]) or is not JSON, [json.loads] raises and the summary raises
    with it, right after the request: the hints are not printed, and the
    error is an [Exception], which the top level turns into exit status
    1. *)
Theorem summary_bad_listing_raises w res w1 body :
  urlopen E probe w = (res, w1) ->
  reply res = Ok (Some 200, body) ->
  body = None \/ (exists s, body = Some s /\ json_loads E s = None) ->
  exists e,
    is_Exception e = true
    /\ summary E w = (Raise e, [EvPrint MsgSummary; EvHTTP probe res], w1).
Proof.
  intros Hopen Hreply Hbody. unfold summary.
  rewrite bind_print, bind_make_request. fold probe.
  rewrite Hopen, Hreply. cbn [status_is Z.eqb Pos.eqb].
  destruct Hbody as [-> | (s & -> & Hparse)].
  - eexists. split; [ | reflexivity]. reflexivity.
  - unfold loads. rewrite Hparse. eexists. split; [ | reflexivity]. reflexivity.
Qed.

(** X20: the exit status of a run is 0 or 1, never anything else: the
    top-level [try] leaves no [KeyboardInterrupt] uncaught, and [main]
    calls [sys.exit] with 1 only. *)
Theorem exit_status_is_0_or_1 (w : W) :
  fst (fst (run E w)) = 0 \/ fst (fst (run E w)) = 1.
Proof.
  destruct (run E w) as [[code t] w'] eqn:Hrun. cbn [fst].
  destruct (run_inv E Hrun) as (r & tm & Hmain & _ & ->).
  pose proof (main_outcome E Hmain) as Hout.
  destruct r as [u | [ | c | c fp | cls msg]]; auto.
  destruct Hout as (-> & _). auto.
Qed.

End MainFacts.

Section FixtureFacts.

Context {W : Type}.
Variable E : Env W.

(** A fixture that is not an object, or whose [zones] has no length, makes
    [main] raise as soon as it looks at it. *)
Lemma provision_unusable doc :
  match doc with
  | JObj items => sized (dict_get_default items (lit "zones") (JArr [])) = false
  | _ => True
  end ->
  exists e, is_Exception e = true
            /\ forall w, provision E doc w = (Raise e, [], w).
Proof.
  intros Hdoc. unfold provision, method_get.
  destruct doc as [ | b | z | f | s | xs | items];
    try (eexists; split; [ | intros w; reflexivity]; reflexivity).
  destruct (dict_get_default items (lit "zones") (JArr []))
    as [ | b | z | f | s | xs | its]; try discriminate Hdoc;
    (eexists; split; [ | intros w; run; reflexivity]; reflexivity).
Qed.

(** X14: a run that loads a fixture which is not a JSON object, or whose
    [zones] is a number, a boolean or [null], ends with exit status 1
    without having sent any [POST] or [PATCH]. *)
Theorem unusable_fixture_aborts w code t w' doc :
  run E w = (code, t, w') ->
  In (EvLoad (Loaded doc)) t ->
  match doc with
  | JObj items => sized (dict_get_default items (lit "zones") (JArr [])) = false
  | _ => True
  end ->
  code = 1 /\ existsb is_write t = false.
Proof.
  intros Hrun Hin Hdoc.
  destruct (run_inv E Hrun) as (r & tm & Hmain & -> & ->).
  assert (Hin' : In (EvLoad (Loaded doc)) tm).
  { apply in_app_or in Hin. destruct Hin as [Hin | Hin]; [exact Hin | ].
    destruct (last_words_prints _ _ Hin) as (m & Hm). discriminate Hm. }
  destruct (loaded_fixture E Hmain Hin')
    as (w0 & tw & w1 & w2 & tp & Hwait & Hprov & ->).
  destruct (provision_unusable doc Hdoc) as (e & He & Hraise).
  rewrite Hraise in Hprov. injection Hprov as <- <- _.
  destruct (polling_events_quiet _ (wait_for_api_quiet E _ _ _ _ _ Hwait))
    as (_ & Hw).
  destruct (last_words_quiet (Raise e)) as (_ & Hw').
  rewrite !existsb_app, Hw, Hw'. split; [now destruct e | reflexivity].
Qed.

(** A run that has failed to load the fixture has waited with success
    before, and stops there. *)
Lemma failed_load {w r t w' f} :
  main E w = (r, t, w') ->
  In (EvLoad (LoadFailed f)) t ->
  exists tw,
    r = Raise (exn_of_fault f)
    /\ t = preamble ++ tw ++ [EvLoad (LoadFailed f)]
    /\ forallb polling_event tw = true.
Proof.
  intros Hmain Hin.
  assert (Hpoll : forall tw, forallb polling_event tw = true ->
                             ~ In (EvLoad (LoadFailed f)) tw).
  { intros tw Hq Hin'. rewrite forallb_forall in Hq.
    specialize (Hq _ Hin'). discriminate Hq. }
  destruct (main_inv E Hmain)
    as [(Habs & -> & ->)
       | (w0 & rw & tw & w1 & Hex & Hwait
          & [(e & -> & -> & ->)
            | [(-> & -> & ->)
              | (-> & res & w2 & Hload
                 & [(f' & -> & -> & ->) | (doc' & tp & -> & Hprov & ->)])]])];
    pose proof I as Hq;
    try (pose proof (wait_for_api_quiet E _ _ _ _ _ Hwait) as Hqw);
    repeat (apply in_app_or in Hin; destruct Hin as [Hin | Hin]);
    try (simpl in Hin; intuition discriminate);
    try (now apply (Hpoll tw Hqw) in Hin).
  - destruct Hin as [Hin | []]. injection Hin as ->. exists tw. auto.
  - destruct Hin as [Hin | Hin]; [discriminate Hin | ].
    pose proof (provision_quiet E doc' _ _ _ _ Hprov) as Hqp.
    rewrite forallb_forall in Hqp. specialize (Hqp _ Hin). discriminate Hqp.
Qed.

(** X15: a run in which the fixture cannot be opened or parsed (the file
    is there and the API is ready) ends with exit status 1 without having
    sent any [POST] or [PATCH]; the last line of its log is the error, or
    "Interrupted" when the load was interrupted. *)
Theorem unreadable_fixture_aborts w code t w' f :
  run E w = (code, t, w') ->
  In (EvLoad (LoadFailed f)) t ->
  code = 1
  /\ existsb is_write t = false
  /\ exists before,
       t = before
           ++ [EvLoad (LoadFailed f);
               EvPrint (match f with
                        | Interrupt => MsgInterrupted
                        | Error cls msg => MsgError (Exception cls msg)
                        end)].
Proof.
  intros Hrun Hin.
  destruct (run_inv E Hrun) as (r & tm & Hmain & -> & ->).
  assert (Hin' : In (EvLoad (LoadFailed f)) tm).
  { apply in_app_or in Hin. destruct Hin as [Hin | Hin]; [exact Hin | ].
    destruct (last_words_prints _ _ Hin) as (m & Hm). discriminate Hm. }
  destruct (failed_load Hmain Hin') as (tw & -> & -> & Hq).
  destruct (polling_events_quiet _ Hq) as (_ & Hw).
  split; [now destruct f | ]. split.
  - rewrite !existsb_app, Hw. now destruct f.
  - exists (preamble ++ tw). rewrite <- !app_assoc. now destruct f.
Qed.

(** X21: [main] writes only to an API that has answered and from a fixture
    it has loaded: in a log with a [POST] or [PATCH], the fixture was
    loaded once, before every write; a probe that returned 200 comes
    before the load; and nothing before the load is a write. *)
Theorem writes_follow_ready_and_load w r t w' :
  main E w = (r, t, w') ->
  existsb is_write t = true ->
  exists tw doc tp res,
    t = preamble ++ tw ++ EvLoad (Loaded doc) :: tp
    /\ existsb is_write (preamble ++ tw) = false
    /\ In (EvHTTP probe res) tw
    /\ returned_status res = Some 200
    /\ existsb is_load tp = false.
Proof.
  intros Hmain Hwrite.
  destruct (main_inv E Hmain)
    as [(Habs & -> & ->)
       | (w0 & rw & tw & w1 & Hex & Hwait
          & [(e & -> & -> & ->)
            | [(-> & -> & ->)
              | (-> & res & w2 & Hload
                 & [(f' & -> & -> & ->) | (doc & tp & -> & Hprov & ->)])]])];
    try discriminate Hwrite;
    destruct (polling_events_quiet _ (wait_for_api_quiet E _ _ _ _ _ Hwait))
      as (Hl & Hw);
    try (rewrite !existsb_app, Hw in Hwrite; discriminate Hwrite).
  destruct (wait_for_api_shape E Hwait) as (fails & tail & Htw & _ & Hend).
  destruct Hend as [(_ & _ & res200 & H200 & ->)
                   | [(Heq & _) | (e & Heq & _)]];
    try discriminate Heq.
  exists tw, doc, tp, res200. split; [reflexivity | ].
  split; [now rewrite existsb_app, Hw | ].
  split; [ | split; [exact H200 | ]].
  - rewrite Htw. right. apply in_or_app. right. now left.
  - pose proof (provision_quiet E doc _ _ _ _ Hprov) as Hq.
    clear - Hq. induction tp as [ | ev tp IH]; [reflexivity | ].
    cbn [forallb] in Hq. apply andb_true_iff in Hq. destruct Hq as (Hev & Hq).
    cbn [existsb]. rewrite (IH Hq). now destruct ev.
Qed.

End FixtureFacts.

Section Tally.

Context {W : Type}.
Variable E : Env W.

(** What [len] counts is what [for] goes through. *)
Lemma py_len_iter v n l :
  py_len v = Ok n -> py_iter v = Ok l -> List.length l = n.
Proof.
  destruct v; simpl; try discriminate; intros Hn Hl;
    injection Hn as <-; injection Hl as <-;
    unfold dict_keys; now rewrite ?length_map.
Qed.

(** [provision] on any document: it raises before the loop, or runs the
    loop over the items of [zones] and, when the loop ends, reports the
    tally against their number. *)
Lemma provision_cases doc w r t w' :
  provision E doc w = (r, t, w') ->
  (exists e, r = Raise e /\ t = [])
  \/ exists zs rz tz w1,
       create_zones E zs 0 w = (rz, tz, w1)
       /\ match rz with
          | Raise e => r = Raise e /\ t = EvPrint (MsgFound (List.length zs)) :: tz
          | Ok c =>
              exists ts,
                summary E w1 = (r, ts, w')
                /\ t = EvPrint (MsgFound (List.length zs))
                       :: tz ++ EvPrint MsgComplete
                          :: EvPrint (MsgProcessed c (List.length zs)) :: ts
          end.
Proof.
  unfold provision. intros H.
  destruct (method_get doc "zones" (JArr [])) as [zones | e] eqn:Hget.
  2: { injection H as <- <- _. left. eauto. }
  rewrite bind_lift_Ok in H.
  destruct (py_len zones) as [n | e] eqn:Hlen.
  2: { injection H as <- <- _. left. eauto. }
  rewrite bind_lift_Ok, bind_print in H.
  destruct (py_iter zones) as [zs | e] eqn:Hiter.
  2: { destruct zones; discriminate. }
  rewrite bind_lift_Ok in H. cbv beta in H.
  pose proof (py_len_iter zones _ _ Hlen Hiter) as <-.
  right. destruct (create_zones E zs 0 w) as [[rz tz] w1] eqn:Hloop.
  exists zs, rz, tz, w1. split; [exact Hloop | ].
  destruct rz as [c | e].
  - erewrite bind_Ok in H by exact Hloop. cbv beta in H.
    rewrite bind_print, bind_lift_Ok, bind_print in H.
    destruct (summary E w1) as [[rs ts] w2] eqn:Hsum.
    injection H as <- <- <-. exists ts. split; reflexivity.
  - erewrite bind_Raise in H by exact Hloop.
    injection H as <- <- _. split; reflexivity.
Qed.

(** X22: whatever the fixture holds and whatever the server answers, the
    line "Successfully processed a/b zones" never reports more zones
    processed than there are: [a <= b]. *)
Theorem reported_tally_within_total w r t w' a b :
  main E w = (r, t, w') ->
  In (EvPrint (MsgProcessed a b)) t ->
  (a <= b)%nat.
Proof.
  intros Hmain Hin.
  assert (Hpoll : forall tw, forallb polling_event tw = true ->
                             ~ In (EvPrint (MsgProcessed a b)) tw).
  { intros tw Hq Hin'. rewrite forallb_forall in Hq.
    specialize (Hq _ Hin'). discriminate Hq. }
  assert (Hchat : forall tz, forallb chatter tz = true ->
                             ~ In (EvPrint (MsgProcessed a b)) tz).
  { intros tz Hq Hin'. rewrite forallb_forall in Hq.
    specialize (Hq _ Hin'). discriminate Hq. }
  destruct (main_inv E Hmain)
    as [(Habs & -> & ->)
       | (w0 & rw & tw & w1 & Hex & Hwait
          & [(e & -> & -> & ->)
            | [(-> & -> & ->)
              | (-> & res & w2 & Hload
                 & [(f' & -> & -> & ->) | (doc & tp & -> & Hprov & ->)])]])];
    try (pose proof (wait_for_api_quiet E _ _ _ _ _ Hwait) as Hqw);
    repeat (apply in_app_or in Hin; destruct Hin as [Hin | Hin]);
    try (simpl in Hin; intuition discriminate);
    try (now apply (Hpoll tw Hqw) in Hin).
  destruct Hin as [Hin | Hin]; [discriminate Hin | ].
  destruct (provision_cases _ _ _ _ _ Hprov)
    as [(e & _ & ->) | (zs & rz & tz & w3 & Hloop & Hrest)];
    [now simpl in Hin | ].
  pose proof (create_zones_chatter E _ _ _ _ _ _ Hloop) as Hqz.
  destruct rz as [c | e].
  - destruct Hrest as (ts & Hsum & ->).
    pose proof (summary_chatter E _ _ _ _ Hsum) as Hqs.
    destruct Hin as [Hin | Hin]; [discriminate Hin | ].
    apply in_app_or in Hin.
    destruct Hin as [Hin | [Hin | [Hin | Hin]]]; try discriminate Hin.
    + now apply (Hchat tz Hqz) in Hin.
    + injection Hin as <- <-.
      pose proof (create_zones_tally E zs _ _ _ _ _ Hloop). lia.
    + now apply (Hchat ts Hqs) in Hin.
  - destruct Hrest as (_ & ->).
    destruct Hin as [Hin | Hin]; [discriminate Hin | ].
    now apply (Hchat tz Hqz) in Hin.
Qed.

End Tally.

(* ================================================================== *)
(** ** These properties at work *)
(* ================================================================== *)

(** A fixture that is the empty object. *)
Lemma empty_fixture_is_provisioned_witness :
  let E := Worlds.healthy JNull in
  provision E (JObj []) tt =
  (let '(rs, ts, w2) := summary E tt in
   (rs,
    EvPrint (MsgFound 0) :: EvPrint MsgComplete
    :: EvPrint (MsgProcessed 0 0) :: ts,
    w2)).
Proof.
  cbv zeta.
  apply (@empty_fixture_is_provisioned unit (Worlds.healthy JNull) [] tt).
  left. reflexivity.
Defined.

(** A fixture that is a list, not an object. *)
Lemma unusable_fixture_aborts_witness :
  let E := Worlds.healthy (JArr []) in
  1 = 1 /\ existsb is_write (snd (fst (run E tt))) = false.
Proof.
  cbv zeta.
  apply (@unusable_fixture_aborts unit (Worlds.healthy (JArr [])) tt 1 _ tt
           (JArr [])).
  - vm_compute. reflexivity.
  - in_log.
  - exact I.
Defined.

(** A fixture that is not JSON. *)
Lemma unreadable_fixture_aborts_witness :
  let f := Error "JSONDecodeError" (lit "Expecting value") in
  let E := Worlds.scripted true (LoadFailed f) in
  let t := snd (fst (run E [Worlds.answer 200 "[]"])) in
  1 = 1
  /\ existsb is_write t = false
  /\ exists before,
       t = before
           ++ [EvLoad (LoadFailed f);
               EvPrint (MsgError (Exception "JSONDecodeError"
                                    (lit "Expecting value")))].
Proof.
  cbv zeta.
  apply (@unreadable_fixture_aborts _
           (Worlds.scripted true
              (LoadFailed (Error "JSONDecodeError" (lit "Expecting value"))))
           [Worlds.answer 200 "[]"] 1 _ []
           (Error "JSONDecodeError" (lit "Expecting value"))).
  - vm_compute. reflexivity.
  - in_log.
Defined.

(** No fixture file. *)
Lemma absent_fixture_no_traffic_witness :
  run (Worlds.scripted false (Loaded JNull)) [Worlds.answer 200 "[]"]
  = (1, [EvPrint MsgLoading; EvExists false; EvPrint MsgFileNotFound],
     [Worlds.answer 200 "[]"]).
Proof.
  apply (@absent_fixture_no_traffic _ (Worlds.scripted false (Loaded JNull))
           [Worlds.answer 200 "[]"] [Worlds.answer 200 "[]"]).
  reflexivity.
Defined.

(** The server is gone when the summary asks for the zones. *)
Lemma summary_without_listing_witness :
  summary (Worlds.scripted true (Loaded JNull)) []
  = (Ok tt, EvPrint MsgSummary :: EvHTTP probe Worlds.refused :: hints, []).
Proof.
  apply (@summary_without_listing _ (Worlds.scripted true (Loaded JNull)) []
           Worlds.refused [] None (Some (lit "Connection refused")));
    reflexivity.
Defined.

(** A listing of two zones. *)
Lemma summary_lists_zones_witness :
  let E := Worlds.scripted_with (fun _ => Some (JArr Worlds.listing)) true
             (Loaded JNull) in
  summary E [Worlds.answer 200 "[]"]
  = (Ok tt,
     EvPrint MsgSummary :: EvHTTP probe (Worlds.answer 200 "[]")
     :: map zone_line Worlds.listing ++ hints,
     []).
Proof.
  cbv zeta.
  apply (@summary_lists_zones _
           (Worlds.scripted_with (fun _ => Some (JArr Worlds.listing)) true
              (Loaded JNull))
           [Worlds.answer 200 "[]"] (Worlds.answer 200 "[]") [] (lit "[]")
           Worlds.listing);
    reflexivity.
Defined.

(** A 200 with an empty body. *)
Lemma summary_bad_listing_raises_witness :
  let E := Worlds.scripted true (Loaded JNull) in
  exists e,
    is_Exception e = true
    /\ summary E [Worlds.answer 200 ""]
       = (Raise e, [EvPrint MsgSummary; EvHTTP probe (Worlds.answer 200 "")], []).
Proof.
  cbv zeta.
  apply (@summary_bad_listing_raises _ (Worlds.scripted true (Loaded JNull))
           [Worlds.answer 200 ""] (Worlds.answer 200 "") [] None).
  - reflexivity.
  - reflexivity.
  - left. reflexivity.
Defined.

(** One zone provisioned on a server that is up. *)
Lemma writes_follow_ready_and_load_witness :
  let E := Worlds.healthy
             (JObj (Worlds.fixture_items [JObj Worlds.native_items])) in
  let t := snd (fst (main E tt)) in
  exists tw doc tp res,
    t = preamble ++ tw ++ EvLoad (Loaded doc) :: tp
    /\ existsb is_write (preamble ++ tw) = false
    /\ In (EvHTTP probe res) tw
    /\ returned_status res = Some 200
    /\ existsb is_load tp = false.
Proof.
  cbv zeta.
  apply (@writes_follow_ready_and_load unit
           (Worlds.healthy
              (JObj (Worlds.fixture_items [JObj Worlds.native_items])))
           tt (Ok tt) _ tt).
  - vm_compute. reflexivity.
  - vm_compute. reflexivity.
Defined.

(** Three zones, all processed. *)
Lemma reported_tally_within_total_witness :
  (3 <= 3)%nat.
Proof.
  apply (@reported_tally_within_total unit
           (Worlds.healthy
              (JObj (Worlds.fixture_items
                       [JObj Worlds.native_items; JObj Worlds.empty_items;
                        JObj Worlds.slave_items])))
           tt (Ok tt)
           (snd (fst (main (Worlds.healthy
              (JObj (Worlds.fixture_items
                       [JObj Worlds.native_items; JObj Worlds.empty_items;
                        JObj Worlds.slave_items]))) tt)))
           tt 3%nat 3%nat).
  - vm_compute. reflexivity.
  - in_log.
Defined.

(* ================================================================== *)
(** ** The top-level handlers *)
(* ================================================================== *)

(** An interrupt that leaves [main] is caught by the top-level [try],
    which prints "Interrupted" and exits with 1; left uncaught, it would
    end the interpreter with 130. *)
Lemma interrupt_is_handled {W} (E : Env W) w t w' :
  main E w = (Raise KeyboardInterrupt, t, w') ->
  run E w = (1, t ++ [EvPrint MsgInterrupted], w')
  /\ exit_status (Raise KeyboardInterrupt) = 130.
Proof.
  intros H. unfold run, script, try_except. rewrite H. split; reflexivity.
Qed.
